(** * AlgoliaSearch.registration: the Algolia engine registry

    A shallow embedding of [src/AlgoliaSearch/registration.py].  The engine
    keeps a dict from Django model classes to index adapters, and wires two
    receivers to Django's [post_save] and [pre_delete] signals.  Python
    methods are embedded as computations in a state-and-exception monad over
    an explicit [World]: the engine's attributes, the two signals, the
    allocator of object identities and the trace of adapter method calls. *)

From stdpp Require Import base option strings list gmap fin_maps.

(** ** Python values *)

(** A Django model class.  Classes hash and compare by identity; the dotted
    path stands for that identity. *)
Record Model := Class { qualname : string }.

#[global] Instance Model_eq_dec : EqDecision Model.
Proof. solve_decision. Defined.

#[global] Instance Model_countable : Countable Model.
Proof. refine (inj_countable' qualname Class _). by intros []. Defined.

(** [str(model)], as spliced into the error messages by [format]. *)
Definition model_str (model : Model) : string :=
  "<class '" +:+ qualname model +:+ "'>".

(** A model instance: an object identity and its [__class__]. *)
Record Instance := { instance_id : positive; instance_class : Model }.

#[global] Instance Instance_eq_dec : EqDecision Instance.
Proof. solve_decision. Defined.

(** The method resolution order of every class ([cls.__mro__], the class
    itself first).  The engine never consults it. *)
Definition ClassTable := Model → list Model.

Definition isinstance (mro : ClassTable) (x : Instance) (cls : Model) : bool :=
  bool_decide (cls ∈ mro (instance_class x)).

(** The exception classes of the module, and the ones raised by the objects
    it calls. *)
Inductive Exception :=
| AlgoliaEngineError (msg : string)
| RegistrationError (msg : string)
| AttributeError (msg : string)
| KeyError (msg : string)
| ForeignError (msg : string).

#[global] Instance Exception_eq_dec : EqDecision Exception.
Proof. solve_decision. Defined.

(** [class RegistrationError(AlgoliaEngineError)]. *)
Definition is_AlgoliaEngineError (e : Exception) : bool :=
  match e with
  | AlgoliaEngineError _ | RegistrationError _ => true
  | _ => false
  end.

(** [algoliasearch.Client(application_id, api_key)]. *)
Record Client := { application_id : string; api_key : string }.

(** [django.conf.settings], the two entries the engine reads. *)
Record Settings := { ALGOLIA_APPLICATION_ID : string; ALGOLIA_API_KEY : string }.

(** An index class, the [index_cls] argument of [register]: the name of the
    class, the methods its instances expose, whether [__init__] raises, and
    whether a method raises once it runs (a failure of the remote index). *)
Record IndexCls := {
  index_cls_name : string;
  index_cls_methods : list string;
  index_cls_init : Model → Client → option Exception;
  index_cls_run : string → Instance → option Exception
}.

(** An adapter: an instance of an index class, built for a model and a
    client.  [adapter_id] is the identity of the object. *)
Record Adapter := {
  adapter_id : positive;
  adapter_cls : IndexCls;
  adapter_model : Model;
  adapter_client : Client
}.

(** One method call on an adapter, as observed from outside. *)
Record Call := { call_adapter : positive; call_method : string; call_arg : Instance }.

#[global] Instance Call_eq_dec : EqDecision Call.
Proof. solve_decision. Defined.

(** ** Django signals

    [django.dispatch.Signal] keeps a list of receivers, each under the lookup
    key made of the receiver's and the sender's identities.  [connect] adds a
    receiver unless its key is present, [disconnect] deletes the first entry
    with the key. *)
Module Signal.

Inductive Receiver :=
| PostSaveReceiver
| PreDeleteReceiver
| Foreign (uid : positive).

#[global] Instance Receiver_eq_dec : EqDecision Receiver.
Proof. solve_decision. Defined.

Definition t := list (Receiver * Model).

Definition connect (receiver : Receiver) (sender : Model) (receivers : t) : t :=
  if bool_decide ((receiver, sender) ∈ receivers) then receivers
  else receivers ++ [(receiver, sender)].

Fixpoint disconnect (receiver : Receiver) (sender : Model) (receivers : t) : t :=
  match receivers with
  | [] => []
  | r_key :: rest =>
      if bool_decide (r_key = (receiver, sender)) then rest
      else r_key :: disconnect receiver sender rest
  end.

(** The receivers [send] would call for a sender. *)
Definition live_receivers (sender : Model) (receivers : t) : list Receiver :=
  (filter (λ r_key, r_key.2 = sender) receivers).*1.

End Signal.

(** ** The world *)

Record World := {
  registered_models : gmap Model Adapter; (* self.__registered_models *)
  client : Client;                        (* self.client *)
  post_save : Signal.t;
  pre_delete : Signal.t;
  next_id : positive;                     (* next free object identity *)
  calls : list Call                       (* adapter calls, oldest first *)
}.

Definition set_registered_models (f : gmap Model Adapter → gmap Model Adapter)
    (w : World) : World :=
  {| registered_models := f (registered_models w); client := client w;
     post_save := post_save w; pre_delete := pre_delete w;
     next_id := next_id w; calls := calls w |}.

Definition set_client (c : Client) (w : World) : World :=
  {| registered_models := registered_models w; client := c;
     post_save := post_save w; pre_delete := pre_delete w;
     next_id := next_id w; calls := calls w |}.

Definition set_post_save (f : Signal.t → Signal.t) (w : World) : World :=
  {| registered_models := registered_models w; client := client w;
     post_save := f (post_save w); pre_delete := pre_delete w;
     next_id := next_id w; calls := calls w |}.

Definition set_pre_delete (f : Signal.t → Signal.t) (w : World) : World :=
  {| registered_models := registered_models w; client := client w;
     post_save := post_save w; pre_delete := f (pre_delete w);
     next_id := next_id w; calls := calls w |}.

Definition set_next_id (f : positive → positive) (w : World) : World :=
  {| registered_models := registered_models w; client := client w;
     post_save := post_save w; pre_delete := pre_delete w;
     next_id := f (next_id w); calls := calls w |}.

Definition log_call (c : Call) (w : World) : World :=
  {| registered_models := registered_models w; client := client w;
     post_save := post_save w; pre_delete := pre_delete w;
     next_id := next_id w; calls := calls w ++ [c] |}.

(** ** The monad of Python computations *)

Inductive outcome (A : Type) :=
| Return (a : A)
| Raise (e : Exception).
Arguments Return {A} a.
Arguments Raise {A} e.

Definition Py (A : Type) : Type := World → outcome A * World.

#[global] Instance Py_ret : MRet Py := λ A a w, (Return a, w).

#[global] Instance Py_bind : MBind Py := λ A B f m w,
  match m w with
  | (Return a, w') => f a w'
  | (Raise e, w') => (Raise e, w')
  end.

Definition raise {A} (e : Exception) : Py A := λ w, (Raise e, w).
Definition gets {A} (f : World → A) : Py A := λ w, (Return (f w), w).
Definition modify (f : World → World) : Py unit := λ w, (Return tt, f w).

(** The world a computation leaves, and the calls it added to the trace. *)
Definition world_after {A} (m : Py A) (w : World) : World := (m w).2.
Definition result_of {A} (m : Py A) (w : World) : outcome A := (m w).1.
Definition new_calls {A} (m : Py A) (w : World) : list Call :=
  drop (length (calls w)) (calls (world_after m w)).

(** How often [method] was called on the adapter [a] with argument [x]. *)
Definition count_calls (a : Adapter) (method : string) (x : Instance)
    (l : list Call) : nat :=
  length (filter (λ c, c = {| call_adapter := adapter_id a;
                              call_method := method; call_arg := x |}) l).

(** ** Operations of the objects the engine uses *)

(** [key in d] and [list(d.keys())]; the order of the keys is not modelled. *)
Definition dict_contains {V} (k : Model) (d : gmap Model V) : bool :=
  bool_decide (is_Some (d !! k)).
Definition dict_keys {V} (d : gmap Model V) : list Model := (map_to_list d).*1.

(** [index_cls(model, client)]: a new object, then [__init__]. *)
Definition construct (index_cls : IndexCls) (model : Model) (c : Client) : Py Adapter :=
  oid ← gets next_id;
  modify (set_next_id Pos.succ);;
  match index_cls_init index_cls model c with
  | Some e => raise e
  | None => mret {| adapter_id := oid; adapter_cls := index_cls;
                    adapter_model := model; adapter_client := c |}
  end.

(** [adapter.method(arg)]: attribute lookup, then the call. *)
Definition call_adapter_method (adapter : Adapter) (method : string)
    (arg : Instance) : Py unit :=
  if bool_decide (method ∈ index_cls_methods (adapter_cls adapter)) then
    modify (log_call {| call_adapter := adapter_id adapter;
                        call_method := method; call_arg := arg |});;
    match index_cls_run (adapter_cls adapter) method arg with
    | Some e => raise e
    | None => mret tt
    end
  else
    raise (AttributeError ("'" +:+ index_cls_name (adapter_cls adapter)
                           +:+ "' object has no attribute '" +:+ method +:+ "'")).

(** ** class AlgoliaEngine *)

Definition already_registered_msg (model : Model) : string :=
  model_str model +:+ " is already registered with Algolia engine".
Definition not_registered_msg (model : Model) : string :=
  model_str model +:+ " is not registered with Algolia engine".

Definition __init__ (settings : Settings) : Py unit :=
  modify (set_registered_models (λ _, ∅));;
  modify (set_client {| application_id := ALGOLIA_APPLICATION_ID settings;
                        api_key := ALGOLIA_API_KEY settings |}).

Definition is_registered (model : Model) : Py bool :=
  d ← gets registered_models;
  mret (dict_contains model d).

Definition register (model : Model) (index_cls : IndexCls) : Py unit :=
  registered ← is_registered model;
  if (registered : bool) then
    raise (RegistrationError (already_registered_msg model))
  else
    c ← gets client;
    index_obj ← construct index_cls model c;
    modify (set_registered_models (<[model := index_obj]>));;
    modify (set_post_save (Signal.connect Signal.PostSaveReceiver model));;
    modify (set_pre_delete (Signal.connect Signal.PreDeleteReceiver model)).

Definition unregister (model : Model) : Py unit :=
  registered ← is_registered model;
  if negb registered then
    raise (RegistrationError (not_registered_msg model))
  else
    modify (set_registered_models (delete model));;
    modify (set_post_save (Signal.disconnect Signal.PostSaveReceiver model));;
    modify (set_pre_delete (Signal.disconnect Signal.PreDeleteReceiver model)).

Definition get_registered_models : Py (list Model) :=
  d ← gets registered_models;
  mret (dict_keys d).

Definition get_adapter (model : Model) : Py Adapter :=
  registered ← is_registered model;
  if (registered : bool) then
    d ← gets registered_models;
    match d !! model with
    | Some adapter => mret adapter
    | None => raise (KeyError (model_str model))
    end
  else
    raise (RegistrationError (not_registered_msg model)).

Definition get_adapter_from_instance (instance : Instance) : Py Adapter :=
  let model := instance_class instance in
  get_adapter model.

Definition update_obj_index (obj : Instance) : Py unit :=
  adapter ← get_adapter_from_instance obj;
  call_adapter_method adapter "update_obj_index" obj.

Definition delete_obj_index (obj : Instance) : Py unit :=
  adapter ← get_adapter_from_instance obj;
  call_adapter_method adapter "delete_obj_index" obj.

(** Signalling hooks. *)

Definition __post_save_receiver (instance : Instance) : Py unit :=
  update_obj_index instance.

Definition __pre_delete_receiver (instance : Instance) : Py unit :=
  delete_obj_index instance.

(** ** Sequences of calls on the engine *)

Inductive Op :=
| Register (model : Model) (index_cls : IndexCls)
| Unregister (model : Model)
| IsRegistered (model : Model)
| GetRegisteredModels
| GetAdapter (model : Model)
| GetAdapterFromInstance (instance : Instance)
| UpdateObjIndex (obj : Instance)
| DeleteObjIndex (obj : Instance)
| PostSave (instance : Instance)
| PreDelete (instance : Instance).

(** The world after one call, whether it returned or raised. *)
Definition step (w : World) (op : Op) : World :=
  match op with
  | Register model index_cls => world_after (register model index_cls) w
  | Unregister model => world_after (unregister model) w
  | IsRegistered model => world_after (is_registered model) w
  | GetRegisteredModels => world_after get_registered_models w
  | GetAdapter model => world_after (get_adapter model) w
  | GetAdapterFromInstance instance => world_after (get_adapter_from_instance instance) w
  | UpdateObjIndex obj => world_after (update_obj_index obj) w
  | DeleteObjIndex obj => world_after (delete_obj_index obj) w
  | PostSave instance => world_after (__post_save_receiver instance) w
  | PreDelete instance => world_after (__pre_delete_receiver instance) w
  end.

Definition run (ops : list Op) (w : World) : World := foldl step w ops.

(** The adapters the registry holds for a model, read off its items. *)
Definition adapters_of (model : Model) (w : World) : list Adapter :=
  (filter (λ item, item.1 = model) (map_to_list (registered_models w))).*2.

Definition at_most_one_adapter (w : World) : Prop :=
  ∀ model, length (adapters_of model w) ≤ 1.

(** The adapter [register] builds in world [w]. *)
Definition new_adapter (index_cls : IndexCls) (model : Model) (w : World) : Adapter :=
  {| adapter_id := next_id w; adapter_cls := index_cls;
     adapter_model := model; adapter_client := client w |}.

(** The world a successful [register] leaves. *)
Definition registered_world (index_cls : IndexCls) (model : Model) (w : World) : World :=
  {| registered_models := <[model := new_adapter index_cls model w]> (registered_models w);
     client := client w;
     post_save := Signal.connect Signal.PostSaveReceiver model (post_save w);
     pre_delete := Signal.connect Signal.PreDeleteReceiver model (pre_delete w);
     next_id := Pos.succ (next_id w);
     calls := calls w |}.

(** The world a successful [unregister] leaves. *)
Definition unregistered_world (model : Model) (w : World) : World :=
  {| registered_models := delete model (registered_models w);
     client := client w;
     post_save := Signal.disconnect Signal.PostSaveReceiver model (post_save w);
     pre_delete := Signal.disconnect Signal.PreDeleteReceiver model (pre_delete w);
     next_id := next_id w;
     calls := calls w |}.

Definition mk_call (a : Adapter) (method : string) (x : Instance) : Call :=
  {| call_adapter := adapter_id a; call_method := method; call_arg := x |}.

(** Every adapter of the registry sits under the model it was built for. *)
Definition registry_consistent (w : World) : Prop :=
  ∀ model a, registered_models w !! model = Some a → adapter_model a = model.

(** The adapters in the registry that were built for a model, read off its
    values. *)
Definition adapters_built_for (model : Model) (w : World) : list Adapter :=
  filter (λ a, adapter_model a = model) (map_to_list (registered_models w)).*2.

(** The registry a call leaves behind. *)
Definition registry_after (w : World) (op : Op) : gmap Model Adapter :=
  match op with
  | Register model index_cls =>
      match registered_models w !! model,
            index_cls_init index_cls model (client w) with
      | None, None =>
          <[model := new_adapter index_cls model w]> (registered_models w)
      | _, _ => registered_models w
      end
  | Unregister model => delete model (registered_models w)
  | _ => registered_models w
  end.

(** The receivers in the specification's words: the saved handler calls the
    adapter's [update_index] once with the instance, the before-deleted
    handler its [delete_index]. *)
Definition handlers_call_update_index_delete_index (w : World) (x : Instance) : Prop :=
  ∀ a, registered_models w !! instance_class x = Some a →
    count_calls a "update_index" x (new_calls (__post_save_receiver x) w) = 1
    ∧ count_calls a "delete_index" x (new_calls (__pre_delete_receiver x) w) = 1.

(** ** A small application, for the examples *)

Definition Article : Model := Class "blog.models.Article".
Definition Author : Model := Class "blog.models.Author".
Definition Animal : Model := Class "zoo.models.Animal".
Definition Dog : Model := Class "zoo.models.Dog".

(** [class Dog(Animal)]. *)
Definition zoo_mro : ClassTable :=
  λ cls, if decide (cls = Dog) then [Dog; Animal] else [cls].

(** An index class with the two methods the engine calls. *)
Definition ObjIndex : IndexCls :=
  {| index_cls_name := "ObjIndex";
     index_cls_methods := ["update_obj_index"; "delete_obj_index"];
     index_cls_init := λ _ _, None;
     index_cls_run := λ _ _, None |}.

(** An index class that exposes the methods under both spellings. *)
Definition DualIndex : IndexCls :=
  {| index_cls_name := "DualIndex";
     index_cls_methods := ["update_index"; "delete_index";
                           "update_obj_index"; "delete_obj_index"];
     index_cls_init := λ _ _, None;
     index_cls_run := λ _ _, None |}.

Definition settings0 : Settings :=
  {| ALGOLIA_APPLICATION_ID := "APPID"; ALGOLIA_API_KEY := "KEY" |}.

(** A process in which another application already listens to [post_save]. *)
Definition env0 : World :=
  {| registered_models := ∅;
     client := {| application_id := ""; api_key := "" |};
     post_save := [(Signal.Foreign 9, Author)];
     pre_delete := [];
     next_id := 1%positive;
     calls := [] |}.

(** [algolia_engine = AlgoliaEngine()]. *)
Definition algolia_engine : World := world_after (__init__ settings0) env0.

Definition article1 : Instance := {| instance_id := 101; instance_class := Article |}.
Definition rex : Instance := {| instance_id := 102; instance_class := Dog |}.

Definition article_world : World :=
  world_after (register Article DualIndex) algolia_engine.
Definition zoo_world : World :=
  world_after (register Animal ObjIndex) algolia_engine.

(** ** Notions for the invariants of the engine *)

(** How often a lookup key occurs among the receivers of a signal. *)
Definition occurrences (key : Signal.Receiver * Model)
    (receivers : list (Signal.Receiver * Model)) : nat :=
  length (filter (λ r_key, r_key = key) receivers).

(** The engine's two receivers are connected once for every registered model
    and not at all for the others. *)
Definition subscriptions_match (w : World) : Prop :=
  ∀ model,
    occurrences (Signal.PostSaveReceiver, model) (post_save w)
    = (if dict_contains model (registered_models w) then 1 else 0)
    ∧ occurrences (Signal.PreDeleteReceiver, model) (pre_delete w)
      = (if dict_contains model (registered_models w) then 1 else 0).

(** The entries of a signal that belong to other receivers than the given
    one, in their order. *)
Definition other_receivers (receiver : Signal.Receiver)
    (receivers : list (Signal.Receiver * Model)) : list (Signal.Receiver * Model) :=
  filter (λ r_key, r_key.1 ≠ receiver) receivers.

(** Every adapter of the registry was allocated before [next_id]. *)
Definition ids_below (w : World) : Prop :=
  ∀ model a, registered_models w !! model = Some a →
    (adapter_id a < next_id w)%positive.

(** Every adapter of the registry holds the engine's client. *)
Definition shares_client (w : World) : Prop :=
  ∀ model a, registered_models w !! model = Some a → adapter_client a = client w.

(** The adapter method an operation forwards to, and the instance it passes. *)
Definition index_op (op : Op) : option (string * Instance) :=
  match op with
  | UpdateObjIndex x | PostSave x => Some ("update_obj_index", x)
  | DeleteObjIndex x | PreDelete x => Some ("delete_obj_index", x)
  | _ => None
  end.

(** No adapter object sits under two models. *)
Definition distinct_ids (w : World) : Prop :=
  ∀ m1 m2 a1 a2,
    registered_models w !! m1 = Some a1 → registered_models w !! m2 = Some a2 →
    adapter_id a1 = adapter_id a2 → m1 = m2.

(** The ways in which forwarding [x] to [method] of its adapter raises [e]:
    the class of [x] is not registered; or the adapter runs the method and it
    fails; or the adapter has no such method. *)
Definition index_raises (w : World) (method : string) (x : Instance)
    (e : Exception) : Prop :=
  (registered_models w !! instance_class x = None
   ∧ e = RegistrationError (not_registered_msg (instance_class x)))
  ∨ ∃ a, registered_models w !! instance_class x = Some a
      ∧ ((method ∈ index_cls_methods (adapter_cls a)
          ∧ index_cls_run (adapter_cls a) method x = Some e)
         ∨ ((method ∉ index_cls_methods (adapter_cls a))
            ∧ ∃ msg, e = AttributeError msg)).

(** The exception a call raises, if it raises. *)
Definition exn_of {A} (o : outcome A) : option Exception :=
  match o with
  | Raise e => Some e
  | Return _ => None
  end.

Definition raised (w : World) (op : Op) : option Exception :=
  match op with
  | Register model index_cls => exn_of (result_of (register model index_cls) w)
  | Unregister model => exn_of (result_of (unregister model) w)
  | IsRegistered model => exn_of (result_of (is_registered model) w)
  | GetRegisteredModels => exn_of (result_of get_registered_models w)
  | GetAdapter model => exn_of (result_of (get_adapter model) w)
  | GetAdapterFromInstance instance =>
      exn_of (result_of (get_adapter_from_instance instance) w)
  | UpdateObjIndex obj => exn_of (result_of (update_obj_index obj) w)
  | DeleteObjIndex obj => exn_of (result_of (delete_obj_index obj) w)
  | PostSave instance => exn_of (result_of (__post_save_receiver instance) w)
  | PreDelete instance => exn_of (result_of (__pre_delete_receiver instance) w)
  end.

(** An index class whose constructor raises, and one whose methods fail at
    the remote index. *)
Definition BrokenIndex : IndexCls :=
  {| index_cls_name := "BrokenIndex";
     index_cls_methods := ["update_obj_index"; "delete_obj_index"];
     index_cls_init := λ _ _, Some (ForeignError "no such index");
     index_cls_run := λ _ _, None |}.

Definition DownIndex : IndexCls :=
  {| index_cls_name := "DownIndex";
     index_cls_methods := ["update_obj_index"; "delete_obj_index"];
     index_cls_init := λ _ _, None;
     index_cls_run := λ _ _, Some (ForeignError "service unavailable") |}.

(** An index class without the methods the engine calls. *)
Definition BareIndex : IndexCls :=
  {| index_cls_name := "BareIndex";
     index_cls_methods := ["update_index"; "delete_index"];
     index_cls_init := λ _ _, None;
     index_cls_run := λ _ _, None |}.

Definition down_world : World :=
  world_after (register Article DownIndex) algolia_engine.
Definition bare_world : World :=
  world_after (register Article BareIndex) algolia_engine.

(** ** Basic facts *)

Ltac py_unfold :=
  unfold mbind, mret, Py_bind, Py_ret, raise, gets, modify,
    world_after, result_of in *; simpl in *.

Lemma dict_contains_Some {V} (k : Model) (d : gmap Model V) (v : V) :
  d !! k = Some v → dict_contains k d = true.
Proof. intros H. unfold dict_contains. rewrite bool_decide_eq_true, H. eauto. Qed.

Lemma dict_contains_None {V} (k : Model) (d : gmap Model V) :
  d !! k = None → dict_contains k d = false.
Proof.
  intros H. unfold dict_contains. rewrite bool_decide_eq_false, H.
  apply is_Some_None.
Qed.

Lemma dict_contains_true {V} (k : Model) (d : gmap Model V) :
  dict_contains k d = true ↔ is_Some (d !! k).
Proof. unfold dict_contains. apply bool_decide_eq_true. Qed.

Lemma dict_contains_false {V} (k : Model) (d : gmap Model V) :
  dict_contains k d = false ↔ d !! k = None.
Proof.
  unfold dict_contains. rewrite bool_decide_eq_false. symmetry. apply eq_None_not_Some.
Qed.

Lemma is_registered_eq model w :
  is_registered model w = (Return (dict_contains model (registered_models w)), w).
Proof. reflexivity. Qed.

Lemma get_adapter_Some model w a :
  registered_models w !! model = Some a → get_adapter model w = (Return a, w).
Proof.
  intros H. unfold get_adapter, is_registered. py_unfold.
  rewrite (dict_contains_Some _ _ _ H). by rewrite H.
Qed.

Lemma get_adapter_None model w :
  registered_models w !! model = None →
  get_adapter model w = (Raise (RegistrationError (not_registered_msg model)), w).
Proof.
  intros H. unfold get_adapter, is_registered. py_unfold.
  by rewrite (dict_contains_None _ _ H).
Qed.

Lemma register_taken model index_cls w a :
  registered_models w !! model = Some a →
  register model index_cls w
  = (Raise (RegistrationError (already_registered_msg model)), w).
Proof.
  intros H. unfold register, is_registered. py_unfold.
  by rewrite (dict_contains_Some _ _ _ H).
Qed.

Lemma register_fresh model index_cls w :
  registered_models w !! model = None →
  index_cls_init index_cls model (client w) = None →
  register model index_cls w = (Return tt, registered_world index_cls model w).
Proof.
  intros H Hinit. unfold register, is_registered, construct. py_unfold.
  rewrite (dict_contains_None _ _ H). by rewrite Hinit.
Qed.

Lemma register_init_raises model index_cls w e :
  registered_models w !! model = None →
  index_cls_init index_cls model (client w) = Some e →
  register model index_cls w = (Raise e, set_next_id Pos.succ w).
Proof.
  intros H Hinit. unfold register, is_registered, construct. py_unfold.
  rewrite (dict_contains_None _ _ H). by rewrite Hinit.
Qed.

Lemma unregister_missing model w :
  registered_models w !! model = None →
  unregister model w = (Raise (RegistrationError (not_registered_msg model)), w).
Proof.
  intros H. unfold unregister, is_registered. py_unfold.
  by rewrite (dict_contains_None _ _ H).
Qed.

Lemma unregister_present model w a :
  registered_models w !! model = Some a →
  unregister model w = (Return tt, unregistered_world model w).
Proof.
  intros H. unfold unregister, is_registered. py_unfold.
  by rewrite (dict_contains_Some _ _ _ H).
Qed.

Lemma call_adapter_method_exposed a method x w :
  method ∈ index_cls_methods (adapter_cls a) →
  call_adapter_method a method x w
  = (match index_cls_run (adapter_cls a) method x with
     | Some e => Raise e
     | None => Return tt
     end, log_call (mk_call a method x) w).
Proof.
  intros H. unfold call_adapter_method.
  rewrite bool_decide_eq_true_2 by done. py_unfold.
  by destruct (index_cls_run _ _ _).
Qed.

Lemma call_adapter_method_missing a method x w :
  method ∉ index_cls_methods (adapter_cls a) →
  ∃ msg, call_adapter_method a method x w = (Raise (AttributeError msg), w).
Proof.
  intros H. unfold call_adapter_method.
  rewrite bool_decide_eq_false_2 by done. eauto.
Qed.

Lemma new_calls_log {A} (m : Py A) w c :
  calls (world_after m w) = calls w ++ [c] → new_calls m w = [c].
Proof. intros H. unfold new_calls. rewrite H. apply drop_app_length. Qed.

Lemma new_calls_same {A} (m : Py A) w :
  world_after m w = w → new_calls m w = [].
Proof. intros H. unfold new_calls. rewrite H. apply drop_all. Qed.

(** ** Subscriptions *)

Lemma RegistrationError_is_AlgoliaEngineError msg :
  is_AlgoliaEngineError (RegistrationError msg) = true.
Proof. reflexivity. Qed.

Lemma connect_live receiver sender (receivers : Signal.t) :
  receiver ∈ Signal.live_receivers sender (Signal.connect receiver sender receivers).
Proof.
  unfold Signal.live_receivers, Signal.connect.
  apply (list_elem_of_fmap_2' fst _ (receiver, sender)); [|done].
  apply list_elem_of_filter. split; [done|].
  case_bool_decide as Hin; [done|].
  apply elem_of_app. right. by left.
Qed.

Lemma connect_connected receiver sender (receivers : Signal.t) :
  (receiver, sender) ∈ receivers →
  Signal.connect receiver sender receivers = receivers.
Proof. intros Hin. unfold Signal.connect. by rewrite bool_decide_eq_true_2. Qed.

Lemma disconnect_absent receiver sender (receivers : Signal.t) :
  (receiver, sender) ∉ receivers →
  Signal.disconnect receiver sender receivers = receivers.
Proof.
  induction receivers as [|r_key rest IH]; [done|]. intros Hnin. simpl.
  rewrite bool_decide_eq_false_2.
  - f_equal. apply IH. intros Hin. apply Hnin. by right.
  - intros ->. apply Hnin. by left.
Qed.

(** After a successful [register] both receivers are live for the model. *)
Lemma register_subscribes model index_cls w :
  Signal.PostSaveReceiver
    ∈ Signal.live_receivers model (post_save (registered_world index_cls model w))
  ∧ Signal.PreDeleteReceiver
    ∈ Signal.live_receivers model (pre_delete (registered_world index_cls model w)).
Proof. split; apply connect_live. Qed.

(** ** The signal receivers *)

Lemma update_obj_index_registered w x a :
  registered_models w !! instance_class x = Some a →
  update_obj_index x w = call_adapter_method a "update_obj_index" x w.
Proof.
  intros H. unfold update_obj_index, get_adapter_from_instance.
  unfold mbind, Py_bind. by rewrite (get_adapter_Some _ _ _ H).
Qed.

Lemma delete_obj_index_registered w x a :
  registered_models w !! instance_class x = Some a →
  delete_obj_index x w = call_adapter_method a "delete_obj_index" x w.
Proof.
  intros H. unfold delete_obj_index, get_adapter_from_instance.
  unfold mbind, Py_bind. by rewrite (get_adapter_Some _ _ _ H).
Qed.

Lemma update_obj_index_unregistered w x :
  registered_models w !! instance_class x = None →
  update_obj_index x w
  = (Raise (RegistrationError (not_registered_msg (instance_class x))), w).
Proof.
  intros H. unfold update_obj_index, get_adapter_from_instance.
  unfold mbind, Py_bind. by rewrite (get_adapter_None _ _ H).
Qed.

Lemma delete_obj_index_unregistered w x :
  registered_models w !! instance_class x = None →
  delete_obj_index x w
  = (Raise (RegistrationError (not_registered_msg (instance_class x))), w).
Proof.
  intros H. unfold delete_obj_index, get_adapter_from_instance.
  unfold mbind, Py_bind. by rewrite (get_adapter_None _ _ H).
Qed.

Lemma call_adapter_method_new_calls a method x w :
  method ∈ index_cls_methods (adapter_cls a) →
  new_calls (call_adapter_method a method x) w = [mk_call a method x].
Proof.
  intros H. apply new_calls_log. unfold world_after.
  by rewrite call_adapter_method_exposed.
Qed.

(** C1, as the specification states it, fails: with [Article] registered
    under an adapter that exposes every method name, the saved handler makes
    one call, to [update_obj_index], and none to [update_index]; the
    before-deleted handler likewise calls [delete_obj_index], not
    [delete_index]. *)
Lemma receivers_do_not_call_update_index :
  ¬ handlers_call_update_index_delete_index article_world article1
  ∧ new_calls (__post_save_receiver article1) article_world
    = [mk_call (new_adapter DualIndex Article algolia_engine) "update_obj_index" article1]
  ∧ new_calls (__pre_delete_receiver article1) article_world
    = [mk_call (new_adapter DualIndex Article algolia_engine) "delete_obj_index" article1].
Proof.
  split; [|split; reflexivity].
  intros H.
  destruct (H (new_adapter DualIndex Article algolia_engine) eq_refl) as [H1 _].
  vm_compute in H1. discriminate H1.
Qed.

(** C1 (amended): for an instance [x] whose class is registered with adapter
    [a], the saved receiver makes exactly one adapter call, [update_obj_index]
    on [a] with [x], and the before-deleted receiver exactly one,
    [delete_obj_index] on [a] with [x], provided [a] exposes the method; for
    an instance of an unregistered class both receivers raise
    [RegistrationError] and leave the world as it was. *)
Theorem receivers_call_adapter_once (w : World) (x : Instance) :
  (∀ a, registered_models w !! instance_class x = Some a →
     ("update_obj_index" ∈ index_cls_methods (adapter_cls a) →
        new_calls (__post_save_receiver x) w = [mk_call a "update_obj_index" x]
        ∧ count_calls a "update_obj_index" x (new_calls (__post_save_receiver x) w) = 1)
     ∧ ("delete_obj_index" ∈ index_cls_methods (adapter_cls a) →
        new_calls (__pre_delete_receiver x) w = [mk_call a "delete_obj_index" x]
        ∧ count_calls a "delete_obj_index" x (new_calls (__pre_delete_receiver x) w) = 1))
  ∧ (registered_models w !! instance_class x = None →
     __post_save_receiver x w
     = (Raise (RegistrationError (not_registered_msg (instance_class x))), w)
     ∧ __pre_delete_receiver x w
     = (Raise (RegistrationError (not_registered_msg (instance_class x))), w)).
Proof.
  split.
  - intros a Ha.
    assert (Hcount : ∀ method,
      count_calls a method x [mk_call a method x] = 1).
    { intros method. unfold count_calls, mk_call.
      rewrite filter_cons_True by done. by rewrite filter_nil. }
    split; intros Hm.
    + assert (E : new_calls (__post_save_receiver x) w
                  = [mk_call a "update_obj_index" x]).
      { unfold __post_save_receiver, new_calls, world_after.
        rewrite (update_obj_index_registered _ _ _ Ha).
        by apply call_adapter_method_new_calls. }
      by rewrite E.
    + assert (E : new_calls (__pre_delete_receiver x) w
                  = [mk_call a "delete_obj_index" x]).
      { unfold __pre_delete_receiver, new_calls, world_after.
        rewrite (delete_obj_index_registered _ _ _ Ha).
        by apply call_adapter_method_new_calls. }
      by rewrite E.
  - intros Hn. split.
    + by apply update_obj_index_unregistered.
    + by apply delete_obj_index_unregistered.
Qed.

Lemma receivers_call_adapter_once_witness :
  (new_calls (__post_save_receiver article1) article_world
   = [mk_call (new_adapter DualIndex Article algolia_engine) "update_obj_index" article1]
   ∧ new_calls (__pre_delete_receiver article1) article_world
     = [mk_call (new_adapter DualIndex Article algolia_engine) "delete_obj_index" article1])
  ∧ __post_save_receiver article1 algolia_engine
    = (Raise (RegistrationError (not_registered_msg Article)), algolia_engine).
Proof.
  split.
  - destruct (receivers_call_adapter_once article_world article1) as [H _].
    destruct (H (new_adapter DualIndex Article algolia_engine) eq_refl) as [Hu Hd].
    split.
    + apply Hu. vm_compute. repeat constructor.
    + apply Hd. vm_compute. repeat constructor.
  - destruct (receivers_call_adapter_once algolia_engine article1) as [_ H].
    apply H. reflexivity.
Defined.

(** ** The items of the registry *)

Lemma filter_key_map_to_list {V} (m : gmap Model V) (k : Model) :
  filter (λ item : Model * V, item.1 = k) (map_to_list m)
  = match m !! k with Some v => [(k, v)] | None => [] end.
Proof.
  induction m as [|i x m Hi IH] using map_ind.
  - by rewrite map_to_list_empty, lookup_empty.
  - assert (P : filter (λ item : Model * V, item.1 = k) (map_to_list (<[i:=x]> m))
                ≡ₚ filter (λ item : Model * V, item.1 = k) ((i, x) :: map_to_list m)).
    { by rewrite map_to_list_insert. }
    destruct (decide (i = k)) as [->|Hne].
    + rewrite lookup_insert_eq. rewrite filter_cons_True, IH, Hi in P by done.
      by apply Permutation_singleton_r in P.
    + rewrite lookup_insert_ne by done.
      rewrite filter_cons_False, IH in P by done.
      destruct (m !! k).
      * by apply Permutation_singleton_r in P.
      * by apply Permutation_nil_r in P.
Qed.

Lemma adapters_of_lookup model w :
  adapters_of model w
  = match registered_models w !! model with Some a => [a] | None => [] end.
Proof.
  unfold adapters_of. rewrite filter_key_map_to_list.
  by destruct (registered_models w !! model).
Qed.

(** ** Registration *)

Lemma register_returns_inv model index_cls w0 w :
  register model index_cls w0 = (Return tt, w) →
  registered_models w0 !! model = None
  ∧ index_cls_init index_cls model (client w0) = None
  ∧ w = registered_world index_cls model w0.
Proof.
  intros E. destruct (registered_models w0 !! model) as [a0|] eqn:Hl.
  - rewrite (register_taken _ _ _ _ Hl) in E. discriminate E.
  - destruct (index_cls_init index_cls model (client w0)) as [e|] eqn:Hi.
    + rewrite (register_init_raises _ _ _ _ Hl Hi) in E. discriminate E.
    + rewrite (register_fresh _ _ _ Hl Hi) in E. by injection E as <-.
Qed.

Lemma unregister_returns_inv model w0 w :
  unregister model w0 = (Return tt, w) →
  is_Some (registered_models w0 !! model) ∧ w = unregistered_world model w0.
Proof.
  intros E. destruct (registered_models w0 !! model) as [a0|] eqn:Hl.
  - rewrite (unregister_present _ _ _ Hl) in E. injection E as <-. eauto.
  - rewrite (unregister_missing _ _ Hl) in E. discriminate E.
Qed.

(** C2: when [model] is already registered, [register] raises
    [RegistrationError] and the world is the one before the call: the model
    still maps to its one adapter, no object was allocated, no receiver
    connected.  When the registration in place came from a successful
    [register model first_cls] on [w0], that adapter is the one this first
    call built. *)
Theorem register_registered_raises (model : Model) (index_cls : IndexCls)
    (w : World) (a : Adapter) :
  registered_models w !! model = Some a →
  register model index_cls w
  = (Raise (RegistrationError (already_registered_msg model)), w)
  ∧ (let w' := world_after (register model index_cls) w in
     registered_models w' = registered_models w
     ∧ adapters_of model w' = [a]
     ∧ next_id w' = next_id w
     ∧ post_save w' = post_save w
     ∧ pre_delete w' = pre_delete w
     ∧ calls w' = calls w)
  ∧ (∀ w0 first_cls, register model first_cls w0 = (Return tt, w) →
       a = new_adapter first_cls model w0).
Proof.
  intros Ha. pose proof (register_taken model index_cls w a Ha) as E.
  split; [exact E|]. split.
  - unfold world_after. rewrite E. simpl. repeat split; try done.
    by rewrite adapters_of_lookup, Ha.
  - intros w0 first_cls E0.
    apply register_returns_inv in E0 as (_ & _ & ->).
    simpl in Ha. rewrite lookup_insert_eq in Ha. by injection Ha as <-.
Qed.

Lemma register_registered_raises_witness :
  register Article ObjIndex article_world
  = (Raise (RegistrationError (already_registered_msg Article)), article_world)
  ∧ adapters_of Article (world_after (register Article ObjIndex) article_world)
    = [new_adapter DualIndex Article algolia_engine].
Proof.
  destruct (register_registered_raises Article ObjIndex article_world
              (new_adapter DualIndex Article algolia_engine) eq_refl)
    as (E & (_ & Hone & _) & _).
  split; [exact E | exact Hone].
Defined.

(** C3: when [model] is not registered, [unregister] raises
    [RegistrationError] and the world is the one before the call; on an empty
    registry the registry stays empty. *)
Theorem unregister_unregistered_raises (model : Model) (w : World) :
  registered_models w !! model = None →
  unregister model w
  = (Raise (RegistrationError (not_registered_msg model)), w)
  ∧ world_after (unregister model) w = w
  ∧ (registered_models w = ∅ →
     registered_models (world_after (unregister model) w) = ∅).
Proof.
  intros Hn. pose proof (unregister_missing model w Hn) as E.
  unfold world_after. rewrite E. simpl. by repeat split.
Qed.

Lemma unregister_unregistered_raises_witness :
  unregister Article algolia_engine
  = (Raise (RegistrationError (not_registered_msg Article)), algolia_engine)
  ∧ registered_models (world_after (unregister Article) algolia_engine) = ∅.
Proof.
  destruct (unregister_unregistered_raises Article algolia_engine eq_refl)
    as (E & _ & Hempty).
  split; [exact E | apply Hempty; reflexivity].
Defined.

(** ** What each call does to the registry *)

Lemma get_adapter_world model w : world_after (get_adapter model) w = w.
Proof.
  unfold world_after. destruct (registered_models w !! model) as [a|] eqn:Hl.
  - by rewrite (get_adapter_Some _ _ _ Hl).
  - by rewrite (get_adapter_None _ _ Hl).
Qed.

Lemma call_adapter_method_registry a method x w :
  registered_models (world_after (call_adapter_method a method x) w)
  = registered_models w.
Proof.
  unfold world_after.
  destruct (decide (method ∈ index_cls_methods (adapter_cls a))) as [Hm|Hm].
  - by rewrite call_adapter_method_exposed.
  - by destruct (call_adapter_method_missing a method x w Hm) as [msg ->].
Qed.

Lemma update_obj_index_registry x w :
  registered_models (world_after (update_obj_index x) w) = registered_models w.
Proof.
  destruct (registered_models w !! instance_class x) as [a|] eqn:Hl.
  - unfold world_after. rewrite (update_obj_index_registered _ _ _ Hl).
    apply call_adapter_method_registry.
  - unfold world_after. by rewrite (update_obj_index_unregistered _ _ Hl).
Qed.

Lemma delete_obj_index_registry x w :
  registered_models (world_after (delete_obj_index x) w) = registered_models w.
Proof.
  destruct (registered_models w !! instance_class x) as [a|] eqn:Hl.
  - unfold world_after. rewrite (delete_obj_index_registered _ _ _ Hl).
    apply call_adapter_method_registry.
  - unfold world_after. by rewrite (delete_obj_index_unregistered _ _ Hl).
Qed.

Lemma step_registered_models w op :
  registered_models (step w op) = registry_after w op.
Proof.
  destruct op as [model cls|model|model| |model|x|x|x|x|x]; simpl.
  - unfold world_after.
    destruct (registered_models w !! model) as [a|] eqn:Hl.
    + by rewrite (register_taken _ _ _ _ Hl).
    + destruct (index_cls_init cls model (client w)) as [e|] eqn:Hi.
      * by rewrite (register_init_raises _ _ _ _ Hl Hi).
      * by rewrite (register_fresh _ _ _ Hl Hi).
  - unfold world_after.
    destruct (registered_models w !! model) as [a|] eqn:Hl.
    + by rewrite (unregister_present _ _ _ Hl).
    + rewrite (unregister_missing _ _ Hl). simpl. by rewrite delete_id.
  - reflexivity.
  - reflexivity.
  - by rewrite get_adapter_world.
  - unfold get_adapter_from_instance. by rewrite get_adapter_world.
  - apply update_obj_index_registry.
  - apply delete_obj_index_registry.
  - apply update_obj_index_registry.
  - apply delete_obj_index_registry.
Qed.

Lemma run_keeps_unregistered model ops w :
  (∀ index_cls, Register model index_cls ∉ ops) →
  registered_models w !! model = None →
  registered_models (run ops w) !! model = None.
Proof.
  revert w. induction ops as [|op ops IH]; intros w Hops Hn; [done|].
  simpl. apply IH.
  - intros cls Hin. apply (Hops cls). by right.
  - rewrite step_registered_models.
    destruct op as [m cls|m|m| |m|x|x|x|x|x]; simpl; try done.
    + assert (m ≠ model) as Hne.
      { intros ->. apply (Hops cls). by left. }
      destruct (registered_models w !! m); [done|].
      destruct (index_cls_init cls m (client w)); [done|].
      by rewrite lookup_insert_ne.
    + rewrite lookup_delete_None. by right.
Qed.

(** C4: on an engine fresh from [__init__], after any calls none of which is
    [register model], [is_registered model] is false; whenever
    [register model] returns, [is_registered model] is true in the world it
    leaves, and [unregister model] then returns and leaves a world where it
    is false; and it is false after every [unregister model] that returns.
    [register model] does return when the model is not registered and the
    index class's constructor does not raise. *)
Theorem is_registered_lifecycle (model : Model) :
  (∀ settings env ops,
     (∀ index_cls, Register model index_cls ∉ ops) →
     result_of (is_registered model) (run ops (world_after (__init__ settings) env))
     = Return false)
  ∧ (∀ w index_cls,
       result_of (is_registered model) w = Return false →
       index_cls_init index_cls model (client w) = None →
       ∃ w1 w2,
         register model index_cls w = (Return tt, w1)
         ∧ result_of (is_registered model) w1 = Return true
         ∧ unregister model w1 = (Return tt, w2)
         ∧ result_of (is_registered model) w2 = Return false)
  ∧ (∀ w index_cls w1, register model index_cls w = (Return tt, w1) →
       result_of (is_registered model) w1 = Return true)
  ∧ (∀ w w2, unregister model w = (Return tt, w2) →
       result_of (is_registered model) w2 = Return false).
Proof.
  assert (Hreg : ∀ w index_cls w1, register model index_cls w = (Return tt, w1) →
                 result_of (is_registered model) w1 = Return true).
  { intros w cls w1 E. apply register_returns_inv in E as (_ & _ & ->).
    unfold result_of. rewrite is_registered_eq. simpl. f_equal.
    apply dict_contains_true. simpl. rewrite lookup_insert_eq. eauto. }
  assert (Hunreg : ∀ w w2, unregister model w = (Return tt, w2) →
                   result_of (is_registered model) w2 = Return false).
  { intros w w2 E. apply unregister_returns_inv in E as (_ & ->).
    unfold result_of. rewrite is_registered_eq. simpl. f_equal.
    apply dict_contains_false. simpl. apply lookup_delete_eq. }
  split; [|split; [|split]]; [| |exact Hreg|exact Hunreg].
  - intros settings env ops Hops.
    unfold result_of. rewrite is_registered_eq. simpl. f_equal.
    apply dict_contains_false. by apply run_keeps_unregistered.
  - intros w cls Hfalse Hinit.
    unfold result_of in Hfalse. rewrite is_registered_eq in Hfalse.
    simpl in Hfalse. injection Hfalse as Hfalse.
    apply dict_contains_false in Hfalse.
    exists (registered_world cls model w),
      (unregistered_world model (registered_world cls model w)).
    pose proof (register_fresh _ _ _ Hfalse Hinit) as E1.
    assert (registered_models (registered_world cls model w) !! model
            = Some (new_adapter cls model w)) as Hl.
    { simpl. apply lookup_insert_eq. }
    pose proof (unregister_present _ _ _ Hl) as E2.
    split; [exact E1|]. split; [by apply (Hreg _ _ _ E1)|].
    split; [exact E2|]. by apply (Hunreg _ _ E2).
Qed.

Lemma is_registered_lifecycle_witness :
  result_of (is_registered Article)
    (run [Register Author ObjIndex; UpdateObjIndex article1; Unregister Article]
       (world_after (__init__ settings0) env0)) = Return false
  ∧ (∃ w1 w2,
       register Article ObjIndex algolia_engine = (Return tt, w1)
       ∧ result_of (is_registered Article) w1 = Return true
       ∧ unregister Article w1 = (Return tt, w2)
       ∧ result_of (is_registered Article) w2 = Return false).
Proof.
  destruct (is_registered_lifecycle Article) as (Hbefore & Hcycle & _ & _).
  split.
  - apply Hbefore. intros cls Hin.
    repeat (apply elem_of_cons in Hin as [Hin|Hin]; [discriminate Hin|]).
    by apply elem_of_nil in Hin.
  - apply Hcycle; reflexivity.
Defined.

(** ** Lookup and forwarding *)

(** C6: for an instance [x] of a registered class, [get_adapter_from_instance
    x] and [get_adapter] of that class return the same adapter object, the
    one the registry holds, and neither changes the world. *)
Theorem get_adapter_from_instance_same (w : World) (x : Instance) (model : Model)
    (a : Adapter) :
  instance_class x = model →
  registered_models w !! model = Some a →
  get_adapter_from_instance x w = get_adapter model w
  ∧ get_adapter_from_instance x w = (Return a, w)
  ∧ get_adapter model w = (Return a, w).
Proof.
  intros <- Ha. unfold get_adapter_from_instance.
  by rewrite (get_adapter_Some _ _ _ Ha).
Qed.

Lemma get_adapter_from_instance_same_witness :
  get_adapter_from_instance article1 article_world
  = get_adapter Article article_world
  ∧ result_of (get_adapter Article) article_world
    = Return (new_adapter DualIndex Article algolia_engine).
Proof.
  destruct (get_adapter_from_instance_same article_world article1 Article
              (new_adapter DualIndex Article algolia_engine) eq_refl eq_refl)
    as (E & _ & E').
  split; [exact E|]. unfold result_of. by rewrite E'.
Defined.

(** C5: when the class of [obj] is registered with adapter [a],
    [update_obj_index obj] is the call of [a]'s update method on [obj] and
    [delete_obj_index obj] the call of its delete method, each one call on
    [a] with [obj] when [a] exposes the method; when the class is not
    registered both raise the [RegistrationError] of
    [get_adapter_from_instance], change nothing and call no adapter. *)
Theorem obj_index_forwards (w : World) (obj : Instance) :
  (∀ a, registered_models w !! instance_class obj = Some a →
     get_adapter_from_instance obj w = (Return a, w)
     ∧ update_obj_index obj w = call_adapter_method a "update_obj_index" obj w
     ∧ delete_obj_index obj w = call_adapter_method a "delete_obj_index" obj w
     ∧ ("update_obj_index" ∈ index_cls_methods (adapter_cls a) →
        new_calls (update_obj_index obj) w = [mk_call a "update_obj_index" obj])
     ∧ ("delete_obj_index" ∈ index_cls_methods (adapter_cls a) →
        new_calls (delete_obj_index obj) w = [mk_call a "delete_obj_index" obj]))
  ∧ (registered_models w !! instance_class obj = None →
     ∃ e, e = RegistrationError (not_registered_msg (instance_class obj))
       ∧ get_adapter_from_instance obj w = (Raise e, w)
       ∧ update_obj_index obj w = (Raise e, w)
       ∧ delete_obj_index obj w = (Raise e, w)
       ∧ new_calls (update_obj_index obj) w = []
       ∧ new_calls (delete_obj_index obj) w = []).
Proof.
  split.
  - intros a Ha.
    pose proof (update_obj_index_registered _ _ _ Ha) as Eu.
    pose proof (delete_obj_index_registered _ _ _ Ha) as Ed.
    split; [by apply get_adapter_Some|].
    split; [exact Eu|]. split; [exact Ed|]. split; intros Hm.
    + unfold new_calls, world_after. rewrite Eu.
      by apply call_adapter_method_new_calls.
    + unfold new_calls, world_after. rewrite Ed.
      by apply call_adapter_method_new_calls.
  - intros Hn. eexists. split; [reflexivity|].
    pose proof (update_obj_index_unregistered _ _ Hn) as Eu.
    pose proof (delete_obj_index_unregistered _ _ Hn) as Ed.
    split; [by apply get_adapter_None|].
    split; [exact Eu|]. split; [exact Ed|]. split.
    + apply new_calls_same. unfold world_after. by rewrite Eu.
    + apply new_calls_same. unfold world_after. by rewrite Ed.
Qed.

Lemma obj_index_forwards_witness :
  new_calls (update_obj_index article1) article_world
  = [mk_call (new_adapter DualIndex Article algolia_engine) "update_obj_index" article1]
  ∧ delete_obj_index article1 algolia_engine
    = (Raise (RegistrationError (not_registered_msg Article)), algolia_engine).
Proof.
  split.
  - destruct (obj_index_forwards article_world article1) as [H _].
    destruct (H (new_adapter DualIndex Article algolia_engine) eq_refl)
      as (_ & _ & _ & Hu & _).
    apply Hu. vm_compute. repeat constructor.
  - destruct (obj_index_forwards algolia_engine article1) as [_ H].
    destruct (H eq_refl) as (e & -> & _ & _ & Ed & _). exact Ed.
Defined.

(** C10: resolution keys on the exact class of the instance.  When that class
    is not registered, [get_adapter_from_instance], [update_obj_index] and
    [delete_obj_index] raise [RegistrationError] and call no adapter, even
    when a superclass of it is registered. *)
Theorem no_superclass_fallback (mro : ClassTable) (w : World) (x : Instance)
    (super : Model) (a : Adapter) :
  super ≠ instance_class x →
  isinstance mro x super = true →
  registered_models w !! super = Some a →
  registered_models w !! instance_class x = None →
  get_adapter_from_instance x w
  = (Raise (RegistrationError (not_registered_msg (instance_class x))), w)
  ∧ update_obj_index x w
    = (Raise (RegistrationError (not_registered_msg (instance_class x))), w)
  ∧ delete_obj_index x w
    = (Raise (RegistrationError (not_registered_msg (instance_class x))), w).
Proof.
  intros _ _ _ Hn. split; [by apply get_adapter_None|]. split.
  - by apply update_obj_index_unregistered.
  - by apply delete_obj_index_unregistered.
Qed.

Lemma no_superclass_fallback_witness :
  isinstance zoo_mro rex Animal = true
  ∧ result_of (is_registered Animal) zoo_world = Return true
  ∧ update_obj_index rex zoo_world
    = (Raise (RegistrationError (not_registered_msg Dog)), zoo_world).
Proof.
  split; [reflexivity|]. split; [reflexivity|].
  destruct (no_superclass_fallback zoo_mro zoo_world rex Animal
              (new_adapter ObjIndex Animal algolia_engine))
    as (_ & Eu & _); [discriminate | reflexivity | reflexivity | reflexivity |].
  exact Eu.
Defined.

(** C9: [is_registered model] returns whether [model] is a key of the
    registry and leaves the world, registry and signals included, as it
    was. *)
Theorem is_registered_pure (model : Model) (w : World) :
  is_registered model w
  = (Return (bool_decide (model ∈ dom (registered_models w))), w)
  ∧ world_after (is_registered model) w = w
  ∧ registered_models (world_after (is_registered model) w) = registered_models w
  ∧ post_save (world_after (is_registered model) w) = post_save w
  ∧ pre_delete (world_after (is_registered model) w) = pre_delete w.
Proof.
  rewrite is_registered_eq. unfold world_after. simpl.
  repeat split. do 2 f_equal. unfold dict_contains.
  apply bool_decide_ext. symmetry. apply elem_of_dom.
Qed.

(** ** The registered models *)

Lemma dict_keys_spec {V} (d : gmap Model V) (model : Model) :
  model ∈ dict_keys d ↔ is_Some (d !! model).
Proof.
  unfold dict_keys. rewrite list_elem_of_fmap. split.
  - intros ([k v] & -> & Hin). apply elem_of_map_to_list in Hin. eauto.
  - intros [v Hv]. exists (model, v). split; [done|].
    by apply elem_of_map_to_list.
Qed.

(** C7: [get_registered_models] returns, without changing the world, a list
    without repetition whose members are exactly the registered models; on a
    fresh engine, after registering two distinct models [A] and [B] and
    unregistering [A], it returns [B] alone. *)
Theorem get_registered_models_exact :
  (∀ w, ∃ l,
     get_registered_models w = (Return l, w)
     ∧ NoDup l
     ∧ (∀ model, model ∈ l ↔ result_of (is_registered model) w = Return true)
     ∧ list_to_set l =@{gset Model} dom (registered_models w))
  ∧ (∀ settings env A B clsA clsB,
       A ≠ B →
       index_cls_init clsA A (client (world_after (__init__ settings) env)) = None →
       index_cls_init clsB B (client (world_after (__init__ settings) env)) = None →
       result_of get_registered_models
         (run [Register A clsA; Register B clsB; Unregister A]
            (world_after (__init__ settings) env))
       = Return [B]).
Proof.
  split.
  - intros w. exists (dict_keys (registered_models w)).
    split; [reflexivity|]. split; [apply NoDup_fst_map_to_list|]. split.
    + intros model. rewrite dict_keys_spec. unfold result_of.
      rewrite is_registered_eq. simpl. rewrite <- dict_contains_true.
      split; [by intros ->|by intros [= ->]].
    + apply set_eq. intros model.
      by rewrite elem_of_list_to_set, dict_keys_spec, elem_of_dom.
  - intros settings env A B clsA clsB Hne HA HB.
    set (w0 := world_after (__init__ settings) env) in *.
    assert (E0 : registered_models w0 = ∅) by reflexivity.
    assert (E1 : step w0 (Register A clsA) = registered_world clsA A w0).
    { cbn [step]. unfold world_after.
      by rewrite (register_fresh A clsA w0) by (by rewrite ?E0). }
    assert (E : registered_models
                  (run [Register A clsA; Register B clsB; Unregister A] w0)
                = {[B := new_adapter clsB B (registered_world clsA A w0)]}).
    { unfold run. cbn [foldl]. rewrite E1.
      rewrite step_registered_models. cbn [registry_after].
      rewrite step_registered_models. cbn [registry_after].
      cbn [registered_world registered_models client].
      rewrite HB, E0, lookup_insert_ne, lookup_empty by done.
      rewrite delete_insert_ne, delete_insert_eq, delete_empty by done.
      apply insert_empty. }
    unfold result_of, get_registered_models. py_unfold. f_equal.
    unfold dict_keys. by rewrite E, map_to_list_singleton.
Qed.

Lemma get_registered_models_exact_witness :
  result_of get_registered_models
    (run [Register Article ObjIndex; Register Author DualIndex; Unregister Article]
       (world_after (__init__ settings0) env0))
  = Return [Author].
Proof.
  destruct get_registered_models_exact as [_ H].
  apply H; [discriminate | reflexivity | reflexivity].
Defined.

(** ** The invariant of the registry *)

Lemma filter_values_keys (l : list (Model * Adapter)) (model : Model) :
  Forall (λ item, adapter_model item.2 = item.1) l →
  filter (λ a, adapter_model a = model) l.*2
  = (filter (λ item : Model * Adapter, item.1 = model) l).*2.
Proof.
  induction 1 as [|[k a] l Hk _ IH]; [done|]. simpl in Hk.
  rewrite fmap_cons. simpl. destruct (decide (k = model)) as [->|Hne].
  - rewrite !filter_cons_True by done. by rewrite fmap_cons, IH.
  - rewrite !filter_cons_False by (simpl; congruence). exact IH.
Qed.

Lemma adapters_built_for_consistent model w :
  registry_consistent w → adapters_built_for model w = adapters_of model w.
Proof.
  intros Hc. unfold adapters_built_for, adapters_of.
  apply filter_values_keys. apply Forall_forall. intros [k a] Hin.
  apply elem_of_map_to_list in Hin. simpl. by apply Hc.
Qed.

Lemma at_most_one_adapter_holds w : at_most_one_adapter w.
Proof.
  intros model. rewrite adapters_of_lookup.
  destruct (registered_models w !! model); simpl; lia.
Qed.

Lemma step_registry_consistent w op :
  registry_consistent w → registry_consistent (step w op).
Proof.
  intros Hc model a. rewrite step_registered_models.
  destruct op as [m cls|m|m| |m|x|x|x|x|x]; simpl; try apply Hc.
  - destruct (registered_models w !! m); [apply Hc|].
    destruct (index_cls_init cls m (client w)); [apply Hc|].
    rewrite lookup_insert_Some. intros [[-> <-]|[_ Hl]]; [done|by apply Hc].
  - rewrite lookup_delete_Some. intros [_ Hl]. by apply Hc.
Qed.

(** C8: the registry of a fresh engine holds at most one adapter for each
    model, and every call of the engine keeps it so, whether the call returns
    or raises.  Moreover, as long as every adapter sits under the model it
    was built for, which the calls preserve as well, the registry holds at
    most one adapter built for each model. *)
Theorem at_most_one_adapter_invariant :
  (∀ settings env,
     at_most_one_adapter (world_after (__init__ settings) env)
     ∧ registry_consistent (world_after (__init__ settings) env))
  ∧ (∀ w op, at_most_one_adapter w → at_most_one_adapter (step w op))
  ∧ (∀ w op, registry_consistent w →
       registry_consistent (step w op)
       ∧ ∀ model, length (adapters_built_for model (step w op)) ≤ 1)
  ∧ (∀ settings env ops model,
       length (adapters_of model (run ops (world_after (__init__ settings) env))) ≤ 1
       ∧ length (adapters_built_for model
                   (run ops (world_after (__init__ settings) env))) ≤ 1).
Proof.
  assert (Hinit : ∀ settings env,
            registry_consistent (world_after (__init__ settings) env)).
  { intros settings env model a. simpl. by rewrite lookup_empty. }
  assert (Hrun : ∀ ops w, registry_consistent w → registry_consistent (run ops w)).
  { induction ops as [|op ops IH]; intros w Hc; [done|].
    simpl. apply IH. by apply step_registry_consistent. }
  split; [|split; [|split]].
  - intros settings env. split; [apply at_most_one_adapter_holds|apply Hinit].
  - intros w op _. apply at_most_one_adapter_holds.
  - intros w op Hc. pose proof (step_registry_consistent w op Hc) as Hc'.
    split; [exact Hc'|]. intros model.
    rewrite (adapters_built_for_consistent _ _ Hc').
    apply at_most_one_adapter_holds.
  - intros settings env ops model. split; [apply at_most_one_adapter_holds|].
    rewrite adapters_built_for_consistent by (apply Hrun, Hinit).
    apply at_most_one_adapter_holds.
Qed.

Lemma at_most_one_adapter_invariant_witness :
  at_most_one_adapter (step article_world (Register Article ObjIndex))
  ∧ length (adapters_built_for Article
              (step article_world (Register Author ObjIndex))) ≤ 1.
Proof.
  destruct at_most_one_adapter_invariant as (Hinit & Hkeys & Hvalues & _).
  assert (Hc : registry_consistent article_world).
  { apply (Hvalues algolia_engine (Register Article DualIndex)).
    apply (Hinit settings0 env0). }
  split.
  - apply Hkeys. apply (Hkeys algolia_engine (Register Article DualIndex)).
    apply (Hinit settings0 env0).
  - apply (Hvalues article_world (Register Author ObjIndex) Hc).
Defined.

(** ** The effect of one call on the world *)

Lemma occurrences_zero key (receivers : Signal.t) :
  occurrences key receivers = 0 ↔ key ∉ receivers.
Proof.
  unfold occurrences. induction receivers as [|r_key rest IH].
  - split; [intros _; apply not_elem_of_nil|done].
  - rewrite not_elem_of_cons. destruct (decide (r_key = key)) as [->|Hne].
    + rewrite filter_cons_True by done. split; [done|by intros [? _]].
    + rewrite filter_cons_False by done. rewrite IH. split; [|by intros [_ ?]].
      intros ?. split; [congruence|done].
Qed.

Lemma occurrences_connect_ne key receiver sender (receivers : Signal.t) :
  key ≠ (receiver, sender) →
  occurrences key (Signal.connect receiver sender receivers)
  = occurrences key receivers.
Proof.
  intros Hne. unfold Signal.connect, occurrences. case_bool_decide; [done|].
  rewrite filter_app, filter_cons_False, filter_nil by congruence.
  by rewrite app_nil_r.
Qed.

Lemma occurrences_connect_new receiver sender (receivers : Signal.t) :
  occurrences (receiver, sender) receivers = 0 →
  occurrences (receiver, sender) (Signal.connect receiver sender receivers) = 1.
Proof.
  intros Hz. pose proof Hz as Hnin. apply occurrences_zero in Hnin.
  unfold Signal.connect. rewrite bool_decide_eq_false_2 by done.
  unfold occurrences in *.
  rewrite filter_app, length_app, Hz, filter_cons_True by done. reflexivity.
Qed.

Lemma occurrences_disconnect_ne key receiver sender (receivers : Signal.t) :
  key ≠ (receiver, sender) →
  occurrences key (Signal.disconnect receiver sender receivers)
  = occurrences key receivers.
Proof.
  intros Hne. unfold occurrences.
  induction receivers as [|r_key rest IH]; [done|]. cbn [Signal.disconnect].
  case_bool_decide as Hk.
  - subst r_key. by rewrite filter_cons_False by congruence.
  - destruct (decide (r_key = key)) as [->|Hne'].
    + rewrite !filter_cons_True by done. cbn [length]. by rewrite IH.
    + by rewrite !filter_cons_False by done.
Qed.

Lemma occurrences_disconnect_eq receiver sender (receivers : Signal.t) :
  occurrences (receiver, sender) (Signal.disconnect receiver sender receivers)
  = pred (occurrences (receiver, sender) receivers).
Proof.
  unfold occurrences. induction receivers as [|r_key rest IH]; [done|].
  cbn [Signal.disconnect]. case_bool_decide as Hk.
  - subst r_key. by rewrite filter_cons_True by done.
  - by rewrite !filter_cons_False by done.
Qed.

Lemma disconnect_connect_new receiver sender (receivers : Signal.t) :
  (receiver, sender) ∉ receivers →
  Signal.disconnect receiver sender (Signal.connect receiver sender receivers)
  = receivers.
Proof.
  intros Hnin. unfold Signal.connect. rewrite bool_decide_eq_false_2 by done.
  induction receivers as [|r_key rest IH]; simpl.
  - by rewrite bool_decide_eq_true_2.
  - apply not_elem_of_cons in Hnin as [Hne Hnin].
    rewrite bool_decide_eq_false_2 by congruence. f_equal. by apply IH.
Qed.

Lemma other_receivers_connect receiver sender (receivers : Signal.t) :
  other_receivers receiver (Signal.connect receiver sender receivers)
  = other_receivers receiver receivers.
Proof.
  unfold other_receivers, Signal.connect. case_bool_decide; [done|].
  rewrite filter_app, filter_cons_False, filter_nil by (simpl; tauto).
  by rewrite app_nil_r.
Qed.

Lemma other_receivers_disconnect receiver sender (receivers : Signal.t) :
  other_receivers receiver (Signal.disconnect receiver sender receivers)
  = other_receivers receiver receivers.
Proof.
  unfold other_receivers. induction receivers as [|r_key rest IH]; [done|].
  cbn [Signal.disconnect]. case_bool_decide as Hk.
  - subst r_key. by rewrite filter_cons_False by (simpl; tauto).
  - destruct (decide (r_key.1 ≠ receiver)) as [Hr|Hr].
    + rewrite !filter_cons_True by done. by rewrite IH.
    + by rewrite !filter_cons_False by done.
Qed.

Lemma step_cases w op :
  step w op = w
  ∨ (∃ model index_cls e, op = Register model index_cls
       ∧ registered_models w !! model = None
       ∧ index_cls_init index_cls model (client w) = Some e
       ∧ step w op = set_next_id Pos.succ w)
  ∨ (∃ model index_cls, op = Register model index_cls
       ∧ registered_models w !! model = None
       ∧ index_cls_init index_cls model (client w) = None
       ∧ step w op = registered_world index_cls model w)
  ∨ (∃ model a, op = Unregister model
       ∧ registered_models w !! model = Some a
       ∧ step w op = unregistered_world model w)
  ∨ (∃ method x a, index_op op = Some (method, x)
       ∧ registered_models w !! instance_class x = Some a
       ∧ method ∈ index_cls_methods (adapter_cls a)
       ∧ step w op = log_call (mk_call a method x) w).
Proof.
  assert (Hindex : ∀ method x (m : Py unit),
    (∀ a, registered_models w !! instance_class x = Some a →
          m w = call_adapter_method a method x w) →
    (registered_models w !! instance_class x = None →
          world_after m w = w) →
    world_after m w = w
    ∨ ∃ a, registered_models w !! instance_class x = Some a
        ∧ method ∈ index_cls_methods (adapter_cls a)
        ∧ world_after m w = log_call (mk_call a method x) w).
  { intros method x m Hsome Hnone.
    destruct (registered_models w !! instance_class x) as [a|] eqn:Hl;
      [|left; by apply Hnone].
    unfold world_after. rewrite (Hsome a eq_refl).
    destruct (decide (method ∈ index_cls_methods (adapter_cls a))) as [Hm|Hm].
    - right. exists a. by rewrite call_adapter_method_exposed.
    - left. by destruct (call_adapter_method_missing a method x w Hm) as [msg ->]. }
  destruct op as [model cls|model|model| |model|x|x|x|x|x]; simpl.
  - unfold world_after.
    destruct (registered_models w !! model) as [a|] eqn:Hl.
    + left. by rewrite (register_taken _ _ _ _ Hl).
    + destruct (index_cls_init cls model (client w)) as [e|] eqn:Hi.
      * right. left. exists model, cls, e.
        by rewrite (register_init_raises _ _ _ _ Hl Hi).
      * right. right. left. exists model, cls.
        by rewrite (register_fresh _ _ _ Hl Hi).
  - unfold world_after.
    destruct (registered_models w !! model) as [a|] eqn:Hl.
    + do 3 right. left. exists model, a.
      by rewrite (unregister_present _ _ _ Hl).
    + left. by rewrite (unregister_missing _ _ Hl).
  - by left.
  - by left.
  - left. apply get_adapter_world.
  - left. apply get_adapter_world.
  - destruct (Hindex "update_obj_index" x (update_obj_index x))
      as [E|(a & Ha & Hm & E)]; [| |by left|].
    + intros a Ha. by apply update_obj_index_registered.
    + intros Hn. unfold world_after. by rewrite update_obj_index_unregistered.
    + do 4 right. by exists "update_obj_index", x, a.
  - destruct (Hindex "delete_obj_index" x (delete_obj_index x))
      as [E|(a & Ha & Hm & E)]; [| |by left|].
    + intros a Ha. by apply delete_obj_index_registered.
    + intros Hn. unfold world_after. by rewrite delete_obj_index_unregistered.
    + do 4 right. by exists "delete_obj_index", x, a.
  - destruct (Hindex "update_obj_index" x (update_obj_index x))
      as [E|(a & Ha & Hm & E)]; [| |by left|].
    + intros a Ha. by apply update_obj_index_registered.
    + intros Hn. unfold world_after. by rewrite update_obj_index_unregistered.
    + do 4 right. by exists "update_obj_index", x, a.
  - destruct (Hindex "delete_obj_index" x (delete_obj_index x))
      as [E|(a & Ha & Hm & E)]; [| |by left|].
    + intros a Ha. by apply delete_obj_index_registered.
    + intros Hn. unfold world_after. by rewrite delete_obj_index_unregistered.
    + do 4 right. by exists "delete_obj_index", x, a.
Qed.

(** ** The engine beyond the error paths *)

(** X1: an engine fresh from [__init__] holds the client built from the two
    settings and no model, whatever the process held before: every
    [is_registered] is false, [get_registered_models] is empty, [get_adapter]
    and [unregister] raise [RegistrationError]; [__init__] connects nothing
    and calls no adapter. *)
Theorem fresh_engine_is_empty (settings : Settings) (env : World) (model : Model) :
  let w := world_after (__init__ settings) env in
  result_of (__init__ settings) env = Return tt
  ∧ client w = {| application_id := ALGOLIA_APPLICATION_ID settings;
                  api_key := ALGOLIA_API_KEY settings |}
  ∧ is_registered model w = (Return false, w)
  ∧ get_registered_models w = (Return [], w)
  ∧ get_adapter model w
    = (Raise (RegistrationError (not_registered_msg model)), w)
  ∧ unregister model w
    = (Raise (RegistrationError (not_registered_msg model)), w)
  ∧ post_save w = post_save env
  ∧ pre_delete w = pre_delete env
  ∧ calls w = calls env.
Proof.
  intros w.
  assert (Hn : registered_models w !! model = None) by apply lookup_empty.
  split; [reflexivity|]. split; [reflexivity|]. split.
  { rewrite is_registered_eq. by rewrite (dict_contains_None _ _ Hn). }
  split.
  { unfold get_registered_models, dict_keys. py_unfold.
    by rewrite map_to_list_empty. }
  split; [by apply get_adapter_None|].
  split; [by apply unregister_missing|]. done.
Qed.

(** X2: on a model that is not registered, with an index class whose
    constructor does not raise, [register] returns; [get_adapter] then
    returns a new object of that class, built for the model with the engine's
    client; both receivers are live for the model; the adapters of the other
    models, the client and the trace of adapter calls are as before. *)
Theorem register_unregistered_returns (model : Model) (index_cls : IndexCls)
    (w : World) :
  registered_models w !! model = None →
  index_cls_init index_cls model (client w) = None →
  ∃ w1 a,
    register model index_cls w = (Return tt, w1)
    ∧ get_adapter model w1 = (Return a, w1)
    ∧ adapter_cls a = index_cls
    ∧ adapter_model a = model
    ∧ adapter_client a = client w
    ∧ adapter_id a = next_id w
    ∧ (∀ other, other ≠ model →
         registered_models w1 !! other = registered_models w !! other)
    ∧ Signal.PostSaveReceiver ∈ Signal.live_receivers model (post_save w1)
    ∧ Signal.PreDeleteReceiver ∈ Signal.live_receivers model (pre_delete w1)
    ∧ client w1 = client w
    ∧ calls w1 = calls w.
Proof.
  intros Hn Hi.
  exists (registered_world index_cls model w), (new_adapter index_cls model w).
  split; [by apply register_fresh|]. split.
  { apply get_adapter_Some. simpl. apply lookup_insert_eq. }
  do 4 (split; [reflexivity|]). split.
  { intros other Hne. simpl. by rewrite lookup_insert_ne. }
  split; [apply connect_live|]. split; [apply connect_live|]. done.
Qed.

Lemma register_unregistered_returns_witness :
  ∃ w1 a,
    register Article ObjIndex algolia_engine = (Return tt, w1)
    ∧ get_adapter Article w1 = (Return a, w1)
    ∧ adapter_cls a = ObjIndex.
Proof.
  destruct (register_unregistered_returns Article ObjIndex algolia_engine)
    as (w1 & a & E & Eg & Hc & _); [reflexivity | reflexivity |].
  exists w1, a. by repeat split.
Defined.

(** X3: when the constructor of the index class raises, [register] raises
    that same exception and registers nothing: the registry, the two signals
    and the trace are as before, and the model is still unregistered. *)
Theorem register_constructor_raises (model : Model) (index_cls : IndexCls)
    (w : World) (e : Exception) :
  registered_models w !! model = None →
  index_cls_init index_cls model (client w) = Some e →
  let w1 := world_after (register model index_cls) w in
  result_of (register model index_cls) w = Raise e
  ∧ registered_models w1 = registered_models w
  ∧ post_save w1 = post_save w
  ∧ pre_delete w1 = pre_delete w
  ∧ calls w1 = calls w
  ∧ is_registered model w1 = (Return false, w1).
Proof.
  intros Hn Hi w1. subst w1. unfold world_after, result_of.
  rewrite (register_init_raises _ _ _ _ Hn Hi). simpl.
  do 5 (split; [reflexivity|]).
  rewrite is_registered_eq. simpl. by rewrite (dict_contains_None _ _ Hn).
Qed.

Lemma register_constructor_raises_witness :
  result_of (register Article BrokenIndex) algolia_engine
  = Raise (ForeignError "no such index")
  ∧ registered_models (world_after (register Article BrokenIndex) algolia_engine)
    = registered_models algolia_engine.
Proof.
  destruct (register_constructor_raises Article BrokenIndex algolia_engine
              (ForeignError "no such index") eq_refl eq_refl)
    as (E & Hr & _).
  split; [exact E | exact Hr].
Defined.

(** X4: on a registered model [unregister] returns; the model is then
    unregistered, so that [get_adapter], a second [unregister] and both
    receivers raise [RegistrationError]; the adapters of the other models and
    the trace are as before. *)
Theorem unregister_registered_returns (model : Model) (w : World) (a : Adapter) :
  registered_models w !! model = Some a →
  ∃ w1,
    unregister model w = (Return tt, w1)
    ∧ registered_models w1 !! model = None
    ∧ (∀ other, other ≠ model →
         registered_models w1 !! other = registered_models w !! other)
    ∧ get_adapter model w1
      = (Raise (RegistrationError (not_registered_msg model)), w1)
    ∧ unregister model w1
      = (Raise (RegistrationError (not_registered_msg model)), w1)
    ∧ (∀ x, instance_class x = model →
         __post_save_receiver x w1
         = (Raise (RegistrationError (not_registered_msg model)), w1)
         ∧ __pre_delete_receiver x w1
           = (Raise (RegistrationError (not_registered_msg model)), w1))
    ∧ calls w1 = calls w
    ∧ next_id w1 = next_id w.
Proof.
  intros Ha. exists (unregistered_world model w).
  assert (Hn : registered_models (unregistered_world model w) !! model = None).
  { simpl. apply lookup_delete_eq. }
  split; [by apply (unregister_present _ _ a)|]. split; [exact Hn|]. split.
  { intros other Hne. simpl. by rewrite lookup_delete_ne. }
  split; [by apply get_adapter_None|].
  split; [by apply unregister_missing|]. split; [|done].
  intros x <-. split.
  - by apply update_obj_index_unregistered.
  - by apply delete_obj_index_unregistered.
Qed.

Lemma unregister_registered_returns_witness :
  ∃ w1, unregister Article article_world = (Return tt, w1)
        ∧ registered_models w1 !! Article = None.
Proof.
  destruct (unregister_registered_returns Article article_world
              (new_adapter DualIndex Article algolia_engine) eq_refl)
    as (w1 & E & Hn & _).
  exists w1. by split.
Defined.

(** X5: registering a model and unregistering it again undoes the
    registration: when the model was not registered and the engine's
    receivers were not connected for it, the world after both calls is the
    world before, except for the object identity the adapter used up. *)
Theorem register_unregister_round_trip (model : Model) (index_cls : IndexCls)
    (w : World) :
  registered_models w !! model = None →
  index_cls_init index_cls model (client w) = None →
  (Signal.PostSaveReceiver, model) ∉ post_save w →
  (Signal.PreDeleteReceiver, model) ∉ pre_delete w →
  (register model index_cls;; unregister model) w
  = (Return tt, set_next_id Pos.succ w).
Proof.
  intros Hn Hi Hps Hpd. unfold mbind, Py_bind.
  rewrite (register_fresh _ _ _ Hn Hi).
  rewrite (unregister_present _ _ (new_adapter index_cls model w))
    by (simpl; apply lookup_insert_eq).
  f_equal. unfold unregistered_world, registered_world, set_next_id. simpl.
  rewrite (delete_insert_id _ _ _ Hn).
  by rewrite (disconnect_connect_new _ _ _ Hps), (disconnect_connect_new _ _ _ Hpd).
Qed.

Lemma register_unregister_round_trip_witness :
  (register Article ObjIndex;; unregister Article) algolia_engine
  = (Return tt, set_next_id Pos.succ algolia_engine).
Proof.
  apply register_unregister_round_trip; [reflexivity | reflexivity | |].
  - intros Hin. apply elem_of_cons in Hin as [Hin|Hin]; [discriminate Hin|].
    by apply elem_of_nil in Hin.
  - apply not_elem_of_nil.
Defined.

(** ** Subscriptions follow the registry *)

Lemma live_receivers_spec receiver sender (receivers : Signal.t) :
  receiver ∈ Signal.live_receivers sender receivers ↔ (receiver, sender) ∈ receivers.
Proof.
  unfold Signal.live_receivers. rewrite list_elem_of_fmap. split.
  - intros ([r s] & -> & Hin). apply list_elem_of_filter in Hin as [Hs Hin].
    simpl in Hs. by subst s.
  - intros Hin. exists (receiver, sender). split; [done|].
    by apply list_elem_of_filter.
Qed.

Lemma dict_contains_insert {V} (k k' : Model) (v : V) (d : gmap Model V) :
  dict_contains k (<[k' := v]> d)
  = if decide (k = k') then true else dict_contains k d.
Proof.
  unfold dict_contains. destruct (decide (k = k')) as [->|Hne].
  - rewrite lookup_insert_eq. by apply bool_decide_eq_true_2.
  - by rewrite lookup_insert_ne.
Qed.

Lemma dict_contains_delete {V} (k k' : Model) (d : gmap Model V) :
  dict_contains k (delete k' d)
  = if decide (k = k') then false else dict_contains k d.
Proof.
  unfold dict_contains. destruct (decide (k = k')) as [->|Hne].
  - rewrite lookup_delete_eq. apply bool_decide_eq_false_2, is_Some_None.
  - by rewrite lookup_delete_ne.
Qed.

Lemma step_subscriptions_match w op :
  subscriptions_match w → subscriptions_match (step w op).
Proof.
  intros Hinv.
  destruct (step_cases w op)
    as [->|[(m & c & e & _ & _ & _ & ->)|[(m & c & _ & Hn & _ & ->)
       |[(m & a & _ & Ha & ->)|(method & x & a & _ & _ & _ & ->)]]]];
    try exact Hinv.
  - intros model. destruct (Hinv model) as [Hps Hpd]. simpl.
    rewrite dict_contains_insert. destruct (decide (model = m)) as [->|Hne].
    + rewrite (dict_contains_None _ _ Hn) in Hps, Hpd.
      by rewrite !occurrences_connect_new.
    + by rewrite !occurrences_connect_ne by congruence.
  - intros model. destruct (Hinv model) as [Hps Hpd]. simpl.
    rewrite dict_contains_delete. destruct (decide (model = m)) as [->|Hne].
    + rewrite (dict_contains_Some _ _ _ Ha) in Hps, Hpd.
      by rewrite !occurrences_disconnect_eq, Hps, Hpd.
    + by rewrite !occurrences_disconnect_ne by congruence.
Qed.

Lemma run_subscriptions_match ops w :
  subscriptions_match w → subscriptions_match (run ops w).
Proof.
  revert w. induction ops as [|op ops IH]; intros w Hinv; [done|].
  simpl. apply IH. by apply step_subscriptions_match.
Qed.

(** X6: the engine keeps its subscriptions in step with the registry.  If
    each of its two receivers is connected once for every registered model
    and for no other, this is so again after any call.  Hence, on an engine
    started in a process where its receivers were not connected, after any
    sequence of calls a receiver is live for a model exactly when the model
    is registered, and never connected twice. *)
Theorem subscriptions_follow_registry :
  (∀ w op, subscriptions_match w → subscriptions_match (step w op))
  ∧ (∀ settings env ops model,
       (∀ m, ((Signal.PostSaveReceiver, m) ∉ post_save env)
             ∧ ((Signal.PreDeleteReceiver, m) ∉ pre_delete env)) →
       let w := run ops (world_after (__init__ settings) env) in
       (Signal.PostSaveReceiver ∈ Signal.live_receivers model (post_save w)
        ↔ is_Some (registered_models w !! model))
       ∧ (Signal.PreDeleteReceiver ∈ Signal.live_receivers model (pre_delete w)
          ↔ is_Some (registered_models w !! model))
       ∧ occurrences (Signal.PostSaveReceiver, model) (post_save w) ≤ 1
       ∧ occurrences (Signal.PreDeleteReceiver, model) (pre_delete w) ≤ 1).
Proof.
  split; [apply step_subscriptions_match|].
  intros settings env ops model Henv w.
  assert (Hinit : subscriptions_match (world_after (__init__ settings) env)).
  { intros m. destruct (Henv m) as [Hps Hpd]. simpl.
    rewrite dict_contains_None by apply lookup_empty.
    by rewrite !occurrences_zero. }
  destruct (run_subscriptions_match ops _ Hinit model) as [Hps Hpd].
  fold w in Hps, Hpd. rewrite !live_receivers_spec.
  assert (Hiff : ∀ key (l : Signal.t),
            occurrences key l
            = (if dict_contains model (registered_models w) then 1 else 0) →
            key ∈ l ↔ is_Some (registered_models w !! model)).
  { intros key l Hocc. rewrite <- dict_contains_true.
    destruct (dict_contains model (registered_models w)).
    - split; [done|]. intros _.
      destruct (decide (key ∈ l)) as [|Hnin]; [done|].
      apply occurrences_zero in Hnin. congruence.
    - apply occurrences_zero in Hocc. split; [done|discriminate]. }
  split; [by apply Hiff|]. split; [by apply Hiff|].
  rewrite Hps, Hpd. destruct (dict_contains model (registered_models w)); lia.
Qed.

Lemma subscriptions_follow_registry_witness :
  Signal.PostSaveReceiver
    ∈ Signal.live_receivers Article
        (post_save (run [Register Article ObjIndex; Register Article DualIndex]
                      (world_after (__init__ settings0) env0)))
  ∧ occurrences (Signal.PostSaveReceiver, Article)
      (post_save (run [Register Article ObjIndex; Register Article DualIndex]
                    (world_after (__init__ settings0) env0))) ≤ 1.
Proof.
  destruct subscriptions_follow_registry as [_ H].
  destruct (H settings0 env0 [Register Article ObjIndex; Register Article DualIndex]
              Article) as (Hlive & _ & Honce & _).
  - intros m. split.
    + intros Hin. apply elem_of_cons in Hin as [Hin|Hin]; [discriminate Hin|].
      by apply elem_of_nil in Hin.
    + apply not_elem_of_nil.
  - split; [|exact Honce]. apply Hlive. vm_compute. eauto.
Defined.

(** X7: the engine leaves the receivers of others alone.  Whatever is called
    on it, the entries of [post_save] that are not its saved receiver, and
    the entries of [pre_delete] that are not its before-deleted receiver,
    stay as they were and in their order. *)
Theorem other_receivers_untouched (ops : list Op) (w : World) :
  other_receivers Signal.PostSaveReceiver (post_save (run ops w))
  = other_receivers Signal.PostSaveReceiver (post_save w)
  ∧ other_receivers Signal.PreDeleteReceiver (pre_delete (run ops w))
    = other_receivers Signal.PreDeleteReceiver (pre_delete w).
Proof.
  revert w. induction ops as [|op ops IH]; intros w; [done|].
  simpl. destruct (IH (step w op)) as [-> ->]. clear IH.
  destruct (step_cases w op)
    as [->|[(m & c & e & _ & _ & _ & ->)|[(m & c & _ & _ & _ & ->)
       |[(m & a & _ & _ & ->)|(method & x & a & _ & _ & _ & ->)]]]];
    try done; simpl.
  - by rewrite !other_receivers_connect.
  - by rewrite !other_receivers_disconnect.
Qed.

(** ** What the calls raise *)

Lemma call_adapter_method_raises a method x w e :
  exn_of (call_adapter_method a method x w).1 = Some e →
  (method ∈ index_cls_methods (adapter_cls a)
   ∧ index_cls_run (adapter_cls a) method x = Some e)
  ∨ ((method ∉ index_cls_methods (adapter_cls a)) ∧ ∃ msg, e = AttributeError msg).
Proof.
  destruct (decide (method ∈ index_cls_methods (adapter_cls a))) as [Hm|Hm].
  - rewrite (call_adapter_method_exposed _ _ _ _ Hm). simpl.
    destruct (index_cls_run (adapter_cls a) method x) as [e'|] eqn:Hr;
      [|discriminate].
    intros [= <-]. by left.
  - destruct (call_adapter_method_missing a method x w Hm) as [msg ->]. simpl.
    intros [= <-]. right. eauto.
Qed.

Lemma update_obj_index_raises w x e :
  exn_of (result_of (update_obj_index x) w) = Some e →
  index_raises w "update_obj_index" x e.
Proof.
  unfold result_of, index_raises.
  destruct (registered_models w !! instance_class x) as [a|] eqn:Hl.
  - rewrite (update_obj_index_registered _ _ _ Hl). intros He. right.
    exists a. split; [done|]. by apply (call_adapter_method_raises _ _ _ w).
  - rewrite (update_obj_index_unregistered _ _ Hl). simpl. intros [= <-].
    by left.
Qed.

Lemma delete_obj_index_raises w x e :
  exn_of (result_of (delete_obj_index x) w) = Some e →
  index_raises w "delete_obj_index" x e.
Proof.
  unfold result_of, index_raises.
  destruct (registered_models w !! instance_class x) as [a|] eqn:Hl.
  - rewrite (delete_obj_index_registered _ _ _ Hl). intros He. right.
    exists a. split; [done|]. by apply (call_adapter_method_raises _ _ _ w).
  - rewrite (delete_obj_index_unregistered _ _ Hl). simpl. intros [= <-].
    by left.
Qed.

Lemma get_adapter_raises model w e :
  exn_of (result_of (get_adapter model) w) = Some e →
  registered_models w !! model = None
  ∧ e = RegistrationError (not_registered_msg model).
Proof.
  unfold result_of. destruct (registered_models w !! model) as [a|] eqn:Hl.
  - by rewrite (get_adapter_Some _ _ _ Hl).
  - rewrite (get_adapter_None _ _ Hl). simpl. by intros [= <-].
Qed.

(** X8: the exceptions of the engine.  [is_registered] and
    [get_registered_models] never raise.  [unregister], [get_adapter] and
    [get_adapter_from_instance] raise only the [RegistrationError] for a
    model that is not registered, never a [KeyError].  [register] raises
    either the [RegistrationError] for a registered model or what the
    constructor of the index class raised.  The index operations and the
    receivers raise the [RegistrationError] for an unregistered class, what
    the adapter's method raised, or an [AttributeError] when the adapter has
    no such method.  Apart from what index classes and adapters raise, every
    exception is an [AlgoliaEngineError]. *)
Theorem raised_exceptions (w : World) (op : Op) (e : Exception) :
  raised w op = Some e →
  match op with
  | Register model index_cls =>
      (is_Some (registered_models w !! model)
       ∧ e = RegistrationError (already_registered_msg model))
      ∨ (registered_models w !! model = None
         ∧ index_cls_init index_cls model (client w) = Some e)
  | Unregister model | GetAdapter model =>
      registered_models w !! model = None
      ∧ e = RegistrationError (not_registered_msg model)
      ∧ is_AlgoliaEngineError e = true
  | GetAdapterFromInstance x =>
      registered_models w !! instance_class x = None
      ∧ e = RegistrationError (not_registered_msg (instance_class x))
      ∧ is_AlgoliaEngineError e = true
  | IsRegistered _ | GetRegisteredModels => False
  | UpdateObjIndex x | PostSave x => index_raises w "update_obj_index" x e
  | DeleteObjIndex x | PreDelete x => index_raises w "delete_obj_index" x e
  end.
Proof.
  destruct op as [model cls|model|model| |model|x|x|x|x|x]; simpl.
  - unfold result_of.
    destruct (registered_models w !! model) as [a|] eqn:Hl.
    + rewrite (register_taken _ _ _ _ Hl). simpl. intros [= <-]. left. eauto.
    + destruct (index_cls_init cls model (client w)) as [e'|] eqn:Hi.
      * rewrite (register_init_raises _ _ _ _ Hl Hi). simpl. intros [= <-].
        by right.
      * by rewrite (register_fresh _ _ _ Hl Hi).
  - unfold result_of.
    destruct (registered_models w !! model) as [a|] eqn:Hl.
    + by rewrite (unregister_present _ _ _ Hl).
    + rewrite (unregister_missing _ _ Hl). simpl. by intros [= <-].
  - discriminate.
  - discriminate.
  - intros He. apply get_adapter_raises in He as [Hn ->]. done.
  - intros He. apply get_adapter_raises in He as [Hn ->]. done.
  - apply update_obj_index_raises.
  - apply delete_obj_index_raises.
  - apply update_obj_index_raises.
  - apply delete_obj_index_raises.
Qed.

Lemma raised_exceptions_witness :
  registered_models algolia_engine !! Article = None
  ∧ RegistrationError (not_registered_msg Article)
    = RegistrationError (not_registered_msg Article)
  ∧ is_AlgoliaEngineError (RegistrationError (not_registered_msg Article)) = true.
Proof.
  apply (raised_exceptions algolia_engine (GetAdapter Article)
           (RegistrationError (not_registered_msg Article))).
  reflexivity.
Defined.

(** X9: a failure of the adapter is not caught.  When the class of [x] is
    registered with adapter [a] and [a]'s method raises [e], the index
    operation and the receiver raise that same [e]; the method was called
    once, and nothing else changed: the model is still registered with
    [a]. *)
Theorem adapter_failure_propagates (w : World) (x : Instance) (a : Adapter) :
  registered_models w !! instance_class x = Some a →
  (∀ e, "update_obj_index" ∈ index_cls_methods (adapter_cls a) →
        index_cls_run (adapter_cls a) "update_obj_index" x = Some e →
        let w1 := log_call (mk_call a "update_obj_index" x) w in
        update_obj_index x w = (Raise e, w1)
        ∧ __post_save_receiver x w = (Raise e, w1)
        ∧ get_adapter (instance_class x) w1 = (Return a, w1))
  ∧ (∀ e, "delete_obj_index" ∈ index_cls_methods (adapter_cls a) →
          index_cls_run (adapter_cls a) "delete_obj_index" x = Some e →
          let w1 := log_call (mk_call a "delete_obj_index" x) w in
          delete_obj_index x w = (Raise e, w1)
          ∧ __pre_delete_receiver x w = (Raise e, w1)
          ∧ get_adapter (instance_class x) w1 = (Return a, w1)).
Proof.
  intros Ha. split; intros e Hm Hr w1.
  - assert (E : update_obj_index x w = (Raise e, w1)).
    { rewrite (update_obj_index_registered _ _ _ Ha).
      by rewrite (call_adapter_method_exposed _ _ _ _ Hm), Hr. }
    split; [exact E|]. split; [exact E|]. by apply get_adapter_Some.
  - assert (E : delete_obj_index x w = (Raise e, w1)).
    { rewrite (delete_obj_index_registered _ _ _ Ha).
      by rewrite (call_adapter_method_exposed _ _ _ _ Hm), Hr. }
    split; [exact E|]. split; [exact E|]. by apply get_adapter_Some.
Qed.

Lemma adapter_failure_propagates_witness :
  __post_save_receiver article1 down_world
  = (Raise (ForeignError "service unavailable"),
     log_call (mk_call (new_adapter DownIndex Article algolia_engine)
                 "update_obj_index" article1) down_world).
Proof.
  destruct (adapter_failure_propagates down_world article1
              (new_adapter DownIndex Article algolia_engine) eq_refl)
    as [Hu _].
  destruct (Hu (ForeignError "service unavailable")) as (_ & E & _).
  - vm_compute. repeat constructor.
  - reflexivity.
  - exact E.
Defined.

(** X10: an adapter without the method the engine calls.  When the class of
    [x] is registered with an adapter that has no [update_obj_index], the
    index operation and the saved receiver raise [AttributeError], call
    nothing and change nothing; likewise for [delete_obj_index] and the
    before-deleted receiver.  An adapter with [update_index] and
    [delete_index] alone is such an adapter. *)
Theorem adapter_without_method_raises (w : World) (x : Instance) (a : Adapter) :
  registered_models w !! instance_class x = Some a →
  ("update_obj_index" ∉ index_cls_methods (adapter_cls a) →
   ∃ msg, update_obj_index x w = (Raise (AttributeError msg), w)
          ∧ __post_save_receiver x w = (Raise (AttributeError msg), w)
          ∧ new_calls (__post_save_receiver x) w = [])
  ∧ ("delete_obj_index" ∉ index_cls_methods (adapter_cls a) →
     ∃ msg, delete_obj_index x w = (Raise (AttributeError msg), w)
            ∧ __pre_delete_receiver x w = (Raise (AttributeError msg), w)
            ∧ new_calls (__pre_delete_receiver x) w = []).
Proof.
  intros Ha. split; intros Hm.
  - destruct (call_adapter_method_missing a "update_obj_index" x w Hm) as [msg E].
    exists msg.
    assert (E' : update_obj_index x w = (Raise (AttributeError msg), w)).
    { by rewrite (update_obj_index_registered _ _ _ Ha). }
    split; [exact E'|]. split; [exact E'|].
    apply new_calls_same. unfold world_after, __post_save_receiver.
    by rewrite E'.
  - destruct (call_adapter_method_missing a "delete_obj_index" x w Hm) as [msg E].
    exists msg.
    assert (E' : delete_obj_index x w = (Raise (AttributeError msg), w)).
    { by rewrite (delete_obj_index_registered _ _ _ Ha). }
    split; [exact E'|]. split; [exact E'|].
    apply new_calls_same. unfold world_after, __pre_delete_receiver.
    by rewrite E'.
Qed.

Lemma adapter_without_method_raises_witness :
  ∃ msg, __post_save_receiver article1 bare_world
         = (Raise (AttributeError msg), bare_world).
Proof.
  destruct (adapter_without_method_raises bare_world article1
              (new_adapter BareIndex Article algolia_engine) eq_refl)
    as [Hu _].
  destruct Hu as (msg & _ & E & _).
  - intros Hin.
    repeat (apply elem_of_cons in Hin as [Hin|Hin]; [discriminate Hin|]).
    by apply elem_of_nil in Hin.
  - by exists msg.
Defined.

(** ** Which adapters are called, and with what *)

Lemma index_op_method op method x :
  index_op op = Some (method, x) →
  method = "update_obj_index" ∨ method = "delete_obj_index".
Proof. destruct op; simpl; intros [= <- _] || discriminate; eauto. Qed.

Lemma step_calls w op :
  calls (step w op) = calls w
  ∨ ∃ method x a, index_op op = Some (method, x)
      ∧ registered_models w !! instance_class x = Some a
      ∧ calls (step w op) = calls w ++ [mk_call a method x].
Proof.
  destruct (step_cases w op)
    as [->|[(m & c & e & _ & _ & _ & ->)|[(m & c & _ & _ & _ & ->)
       |[(m & a & _ & _ & ->)|(method & x & a & Hop & Ha & _ & ->)]]]];
    try (by left).
  right. by exists method, x, a.
Qed.

Lemma run_calls ops w :
  ∃ l, calls (run ops w) = calls w ++ l
       ∧ Forall (λ c, call_method c = "update_obj_index"
                      ∨ call_method c = "delete_obj_index") l.
Proof.
  revert w. induction ops as [|op ops IH]; intros w.
  - exists []. by rewrite app_nil_r.
  - simpl. destruct (IH (step w op)) as (l & -> & Hl).
    destruct (step_calls w op) as [->|(method & x & a & Hop & _ & ->)].
    + by exists l.
    + exists (mk_call a method x :: l). rewrite <- app_assoc. split; [done|].
      constructor; [|done]. simpl. by apply (index_op_method op method x).
Qed.

(** X11: the engine calls adapters only to index.  [register], [unregister]
    and the lookups call no adapter.  An index operation or a receiver makes
    at most one call, on the adapter registered for the class of its
    instance, passing that instance.  Over any sequence of calls on the
    engine, the only adapter methods invoked are [update_obj_index] and
    [delete_obj_index]. *)
Theorem only_index_operations_call_adapters :
  (∀ w op, index_op op = None → calls (step w op) = calls w)
  ∧ (∀ w op,
       calls (step w op) = calls w
       ∨ ∃ method x a, index_op op = Some (method, x)
           ∧ registered_models w !! instance_class x = Some a
           ∧ calls (step w op) = calls w ++ [mk_call a method x])
  ∧ (∀ ops w c,
       c ∈ drop (length (calls w)) (calls (run ops w)) →
       call_method c = "update_obj_index" ∨ call_method c = "delete_obj_index").
Proof.
  split; [|split].
  - intros w op Hop.
    destruct (step_calls w op) as [E|(method & x & a & Hop' & _)]; [done|].
    congruence.
  - apply step_calls.
  - intros ops w c Hin. destruct (run_calls ops w) as (l & E & Hl).
    rewrite E, drop_app_length in Hin.
    by apply (proj1 (Forall_forall _ _) Hl).
Qed.

Lemma only_index_operations_call_adapters_witness :
  calls (step article_world (Unregister Article)) = calls article_world.
Proof.
  destruct only_index_operations_call_adapters as [H _].
  apply H. reflexivity.
Defined.

(** ** The client and the identities of the adapters *)

Lemma step_client w op : client (step w op) = client w.
Proof.
  by destruct (step_cases w op)
    as [->|[(m & c & e & _ & _ & _ & ->)|[(m & c & _ & _ & _ & ->)
       |[(m & a & _ & _ & ->)|(method & x & a & _ & _ & _ & ->)]]]].
Qed.

Lemma step_shares_client w op : shares_client w → shares_client (step w op).
Proof.
  intros Hinv.
  destruct (step_cases w op)
    as [->|[(m & c & e & _ & _ & _ & ->)|[(m & c & _ & _ & _ & ->)
       |[(m & a & _ & _ & ->)|(method & x & a & _ & _ & _ & ->)]]]];
    try exact Hinv.
  - intros model a. simpl. rewrite lookup_insert_Some.
    intros [[_ <-]|[_ Hl]]; [done|exact (Hinv model a Hl)].
  - intros model a'. simpl. rewrite lookup_delete_Some.
    intros [_ Hl]. exact (Hinv model a' Hl).
Qed.

(** X12: all adapters share the engine's client.  No call changes the
    client, and [register] hands it to the adapter it builds; so after any
    sequence of calls on a fresh engine, every registered adapter holds the
    client that [__init__] built from the settings. *)
Theorem adapters_share_engine_client :
  (∀ w op, client (step w op) = client w)
  ∧ (∀ w op, shares_client w → shares_client (step w op))
  ∧ (∀ settings env ops model a,
       registered_models (run ops (world_after (__init__ settings) env)) !! model
       = Some a →
       adapter_client a
       = {| application_id := ALGOLIA_APPLICATION_ID settings;
            api_key := ALGOLIA_API_KEY settings |}).
Proof.
  split; [apply step_client|]. split; [apply step_shares_client|].
  intros settings env ops.
  assert (Hrun : ∀ ops w, shares_client w →
            shares_client (run ops w) ∧ client (run ops w) = client w).
  { clear ops. induction ops as [|op ops IH]; intros w Hinv; [done|].
    simpl. destruct (IH (step w op)) as [H1 H2].
    - by apply step_shares_client.
    - split; [done|]. by rewrite H2, step_client. }
  destruct (Hrun ops (world_after (__init__ settings) env)) as [Hinv Hc].
  { intros model a. simpl. by rewrite lookup_empty. }
  intros model a Ha. by rewrite (Hinv model a Ha), Hc.
Qed.

Lemma adapters_share_engine_client_witness :
  adapter_client (new_adapter DualIndex Article algolia_engine)
  = {| application_id := "APPID"; api_key := "KEY" |}.
Proof.
  destruct adapters_share_engine_client as (_ & _ & H).
  apply (H settings0 env0 [Register Article DualIndex] Article). reflexivity.
Defined.

Lemma step_ids w op :
  ids_below w ∧ distinct_ids w →
  ids_below (step w op) ∧ distinct_ids (step w op).
Proof.
  intros [Hb Hd].
  destruct (step_cases w op)
    as [->|[(m & c & e & _ & _ & _ & ->)|[(m & c & _ & _ & _ & ->)
       |[(m & a & _ & _ & ->)|(method & x & a & _ & _ & _ & ->)]]]];
    try done.
  - split; [|exact Hd]. intros model a Ha. simpl in *.
    specialize (Hb model a Ha). lia.
  - split.
    + intros model a. simpl. rewrite lookup_insert_Some.
      intros [[_ <-]|[_ Hl]]; simpl; [lia|]. specialize (Hb model a Hl). lia.
    + intros m1 m2 a1 a2. simpl. rewrite !lookup_insert_Some.
      intros [[<- <-]|[Hne1 H1]] [[<- <-]|[Hne2 H2]] Hid; simpl in *.
      * done.
      * specialize (Hb m2 a2 H2). lia.
      * specialize (Hb m1 a1 H1). lia.
      * by apply (Hd m1 m2 a1 a2).
  - split.
    + intros model a'. simpl. rewrite lookup_delete_Some.
      intros [_ Hl]. exact (Hb model a' Hl).
    + intros m1 m2 a1 a2. simpl. rewrite !lookup_delete_Some.
      intros [_ H1] [_ H2]. exact (Hd m1 m2 a1 a2 H1 H2).
Qed.

(** X13: every registration builds an object of its own.  After any
    sequence of calls on a fresh engine, the adapters of two different
    registered models are different objects. *)
Theorem registered_adapters_are_distinct (settings : Settings) (env : World)
    (ops : list Op) (m1 m2 : Model) (a1 a2 : Adapter) :
  m1 ≠ m2 →
  registered_models (run ops (world_after (__init__ settings) env)) !! m1 = Some a1 →
  registered_models (run ops (world_after (__init__ settings) env)) !! m2 = Some a2 →
  adapter_id a1 ≠ adapter_id a2 ∧ a1 ≠ a2.
Proof.
  intros Hne H1 H2.
  assert (Hrun : ∀ ops w, ids_below w ∧ distinct_ids w →
            ids_below (run ops w) ∧ distinct_ids (run ops w)).
  { clear. induction ops as [|op ops IH]; intros w Hinv; [done|].
    simpl. apply IH. by apply step_ids. }
  destruct (Hrun ops (world_after (__init__ settings) env)) as [_ Hd].
  { split.
    - intros model a. simpl. by rewrite lookup_empty.
    - intros ? ? ? ?. simpl. by rewrite lookup_empty. }
  assert (Hid : adapter_id a1 ≠ adapter_id a2).
  { intros Hid. apply Hne. by apply (Hd m1 m2 a1 a2). }
  split; [exact Hid|]. intros ->. by apply Hid.
Qed.

Lemma registered_adapters_are_distinct_witness :
  adapter_id (new_adapter ObjIndex Article algolia_engine)
  ≠ adapter_id (new_adapter ObjIndex Author
                  (world_after (register Article ObjIndex) algolia_engine)).
Proof.
  apply (registered_adapters_are_distinct settings0 env0
           [Register Article ObjIndex; Register Author ObjIndex]
           Article Author); [discriminate | reflexivity | reflexivity].
Defined.

(** ** Registering again, and the list of models *)

(** X14: a model can be registered again after [unregister], and gets a new
    adapter.  Registering an unregistered model with [first_cls],
    unregistering it and registering it with [second_cls] all return, and
    [get_adapter] then returns an object of [second_cls] that is not the
    adapter of the first registration. *)
Theorem reregister_builds_new_adapter (model : Model)
    (first_cls second_cls : IndexCls) (w : World) :
  registered_models w !! model = None →
  index_cls_init first_cls model (client w) = None →
  index_cls_init second_cls model (client w) = None →
  ∃ a,
    result_of (register model first_cls;; unregister model;;
               register model second_cls;; get_adapter model) w = Return a
    ∧ adapter_cls a = second_cls
    ∧ adapter_model a = model
    ∧ adapter_id a = Pos.succ (next_id w)
    ∧ adapter_id a ≠ adapter_id (new_adapter first_cls model w).
Proof.
  intros Hn H1 H2.
  set (w1 := registered_world first_cls model w).
  set (w2 := unregistered_world model w1).
  assert (Hn2 : registered_models w2 !! model = None).
  { simpl. apply lookup_delete_eq. }
  exists (new_adapter second_cls model w2).
  split; [|repeat split; simpl; lia].
  unfold result_of, mbind, Py_bind.
  rewrite (register_fresh _ _ _ Hn H1). fold w1.
  rewrite (unregister_present _ _ (new_adapter first_cls model w))
    by (simpl; apply lookup_insert_eq). fold w2.
  rewrite (register_fresh model second_cls w2 Hn2) by exact H2.
  rewrite (get_adapter_Some model _ (new_adapter second_cls model w2))
    by (simpl; apply lookup_insert_eq).
  reflexivity.
Qed.

Lemma reregister_builds_new_adapter_witness :
  ∃ a,
    result_of (register Article ObjIndex;; unregister Article;;
               register Article DualIndex;; get_adapter Article) algolia_engine
    = Return a
    ∧ adapter_cls a = DualIndex.
Proof.
  destruct (reregister_builds_new_adapter Article ObjIndex DualIndex algolia_engine)
    as (a & E & Hc & _); [reflexivity | reflexivity | reflexivity |].
  exists a. by split.
Defined.

(** X15: [get_registered_models] grows and shrinks by the one model.  After
    a [register] that returns, the list is the list before with the model
    added; after an [unregister] that returns, the list before is the list
    after with the model added (both up to order). *)
Theorem registered_models_change_by_one (model : Model) (w : World) :
  (∀ index_cls w1, register model index_cls w = (Return tt, w1) →
     ∃ l l1, result_of get_registered_models w = Return l
             ∧ result_of get_registered_models w1 = Return l1
             ∧ l1 ≡ₚ model :: l
             ∧ model ∉ l)
  ∧ (∀ w1, unregister model w = (Return tt, w1) →
       ∃ l l1, result_of get_registered_models w = Return l
               ∧ result_of get_registered_models w1 = Return l1
               ∧ l ≡ₚ model :: l1
               ∧ model ∉ l1).
Proof.
  split.
  - intros cls w1 E. apply register_returns_inv in E as (Hn & _ & ->).
    exists (dict_keys (registered_models w)),
      (dict_keys (registered_models (registered_world cls model w))).
    split; [reflexivity|]. split; [reflexivity|]. split.
    + unfold dict_keys. simpl. by rewrite (map_to_list_insert _ _ _ Hn).
    + rewrite dict_keys_spec, Hn. apply is_Some_None.
  - intros w1 E. apply unregister_returns_inv in E as ([a Ha] & ->).
    exists (dict_keys (registered_models w)),
      (dict_keys (registered_models (unregistered_world model w))).
    split; [reflexivity|]. split; [reflexivity|]. split.
    + unfold dict_keys. simpl. by rewrite <- (map_to_list_delete _ _ _ Ha).
    + rewrite dict_keys_spec. simpl. rewrite lookup_delete_eq.
      apply is_Some_None.
Qed.

Lemma registered_models_change_by_one_witness :
  ∃ l l1, result_of get_registered_models article_world = Return l
          ∧ result_of get_registered_models
              (unregistered_world Article article_world) = Return l1
          ∧ l ≡ₚ Article :: l1.
Proof.
  destruct (registered_models_change_by_one Article article_world) as [_ H].
  destruct (H (unregistered_world Article article_world))
    as (l & l1 & E & E1 & Hp & _); [reflexivity|].
  exists l, l1. by repeat split.
Defined.
